(** * Electricity usage calculator: estimator, history store, weekly slice, export

    A shallow embedding of [electricity_calculator.py].  Python's [float] is
    IEEE 754 binary64 and is modelled bit for bit with the Standard Library's
    [spec_float] (precision 53, maximal exponent 1024, round to nearest even);
    Python's [int] is [Z].  The Streamlit session state is an explicit record
    that every handler receives and returns, and the wall clock is an input. *)

From Stdlib Require Import ZArith QArith Qabs Ascii String.
From Stdlib Require Import Floats.SpecFloat.
From stdpp Require Import base option list strings gmap sorting pretty.

Local Open Scope Z_scope.

(** ** Binary64 arithmetic *)

Module Binary64.

Definition prec : Z := 53.
Definition emax : Z := 1024.

Definition float : Type := spec_float.

(** [float(n)] for a Python [int]: round to nearest even. *)
Definition of_Z (n : Z) : float := binary_normalize prec emax n 0 false.

Definition add : float -> float -> float := SFadd prec emax.
Definition mul : float -> float -> float := SFmul prec emax.
Definition div : float -> float -> float := SFdiv prec emax.

(** The decimal literal [m]e-[k], as the parser reads it: the double nearest
    to [m / 10^k].  Both [m] and [10^k] are below [2^53] for every literal of
    the program, so they are doubles themselves and the correctly rounded
    quotient is the nearest double to the decimal. *)
Definition decimal (m : Z) (k : Z) : float := div (of_Z m) (of_Z (10 ^ k)).

(** The real number a finite double stands for. *)
Definition to_Q (x : float) : Q :=
  match x with
  | S754_finite s m e =>
      let z := if s then Z.neg m else Z.pos m in
      if (0 <=? e)%Z then inject_Z (z * 2 ^ e) else Qmake z (Z.to_pos (2 ^ (- e)))
  | _ => 0%Q
  end.

End Binary64.

(** ** Python numbers: [int] and [float] with the usual coercion *)

Inductive pynum : Type :=
  | PyInt (z : Z)
  | PyFloat (f : Binary64.float).

Definition to_float (n : pynum) : Binary64.float :=
  match n with
  | PyInt z => Binary64.of_Z z
  | PyFloat f => f
  end.

Definition py_add (a b : pynum) : pynum :=
  match a, b with
  | PyInt x, PyInt y => PyInt (x + y)
  | _, _ => PyFloat (Binary64.add (to_float a) (to_float b))
  end.

Definition py_mul (a b : pynum) : pynum :=
  match a, b with
  | PyInt x, PyInt y => PyInt (x * y)
  | _, _ => PyFloat (Binary64.mul (to_float a) (to_float b))
  end.

(** The exact value of a number. *)
Definition py_value (n : pynum) : Q :=
  match n with
  | PyInt z => inject_Z z
  | PyFloat f => Binary64.to_Q f
  end.

(** Python's [==] on finite numbers compares the exact values. *)
Definition py_eqb (a b : pynum) : bool := Qeq_bool (py_value a) (py_value b).

Declare Scope py_scope.
Delimit Scope py_scope with py.
Bind Scope py_scope with pynum.
Notation "a + b" := (py_add a b) : py_scope.
Notation "a * b" := (py_mul a b) : py_scope.

(** A float literal [m]e-[k] and an int literal. *)
Definition lit (m : Z) (k : Z) : pynum := PyFloat (Binary64.decimal m k).
Definition int (z : Z) : pynum := PyInt z.

(** ** Text

    A Python [str] is modelled by its UTF-8 bytes.  [str.lower] maps the ASCII
    capitals to their small letters; the only code point outside ASCII whose
    lowercase form is ASCII is U+212A KELVIN SIGN (bytes E2 84 AA), which
    becomes [k].  Every other code point outside ASCII has a lowercase form
    that holds a code point outside ASCII; it is kept as it is here.  The
    keys of the table below are ASCII, so a text lowers to a key here exactly
    when it does in Python. *)

Definition lower_ascii (c : ascii) : ascii :=
  let n := N_of_ascii c in
  if ((65 <=? n) && (n <=? 90))%N then ascii_of_N (n + 32) else c.

Definition is_kelvin (c c1 c2 : ascii) : bool :=
  ((N_of_ascii c =? 226) && (N_of_ascii c1 =? 132) && (N_of_ascii c2 =? 170))%N.

Fixpoint lower (s : string) : string :=
  match s with
  | EmptyString => EmptyString
  | String c rest =>
      match rest with
      | String c1 (String c2 rest') =>
          if is_kelvin c c1 c2 then String "k" (lower rest')
          else String (lower_ascii c) (lower rest)
      | _ => String (lower_ascii c) (lower rest)
      end
  end.

(** [t] is a case variant of [s]: the same text, except that letters may
    differ in case. *)
Fixpoint case_variant (s t : string) : Prop :=
  match s, t with
  | EmptyString, EmptyString => True
  | String c s', String d t' => lower_ascii c = lower_ascii d /\ case_variant s' t'
  | _, _ => False
  end.

(** ** Estimator *)

(** [calculate_base_energy]: the table is built on every call, the key is the
    lowercased facility, and [dict.get] falls back to the int [0]. *)
Definition base_consumption : gmap string pynum :=
  <["1bhk" := (int 2 * lit 4 1 + int 2 * lit 8 1)%py]>
  (<["2bhk" := (int 3 * lit 4 1 + int 3 * lit 8 1)%py]>
  (<["3bhk" := (int 4 * lit 4 1 + int 4 * lit 8 1)%py]> ∅)).

Definition calculate_base_energy (facility : string) : pynum :=
  default (int 0) (base_consumption !! lower facility).

(** [calculate_appliance_energy]: an accumulator that starts at the int [0]
    and takes one guarded [+=] per appliance, in the order of the source. *)
Definition calculate_appliance_energy
    (ac fridge washing_machine tv microwave water_heater : bool) : pynum :=
  let appliance_consumption := int 0 in
  let appliance_consumption :=
    if ac then (appliance_consumption + lit 15 1 * int 8)%py
    else appliance_consumption in
  let appliance_consumption :=
    if fridge then (appliance_consumption + lit 15 2 * int 24)%py
    else appliance_consumption in
  let appliance_consumption :=
    if washing_machine then (appliance_consumption + int 2)%py
    else appliance_consumption in
  let appliance_consumption :=
    if tv then (appliance_consumption + lit 15 2 * int 6)%py
    else appliance_consumption in
  let appliance_consumption :=
    if microwave then (appliance_consumption + lit 12 1 * lit 5 1)%py
    else appliance_consumption in
  let appliance_consumption :=
    if water_heater then (appliance_consumption + int 2 * int 2)%py
    else appliance_consumption in
  appliance_consumption.

(** The housing types the select box offers and the six check boxes. *)
Inductive HousingType : Type := OneBHK | TwoBHK | ThreeBHK.

Definition housing_label (h : HousingType) : string :=
  match h with
  | OneBHK => "1BHK"
  | TwoBHK => "2BHK"
  | ThreeBHK => "3BHK"
  end.

Record ApplianceFlags : Type := mkFlags {
  ac : bool;
  fridge : bool;
  washing_machine : bool;
  tv : bool;
  microwave : bool;
  water_heater : bool
}.

(** Lines 140-142: [total_energy = base_energy + appliance_energy]. *)
Definition total_energy_of (facility : string) (a : ApplianceFlags) : pynum :=
  let base_energy := calculate_base_energy facility in
  let appliance_energy :=
    calculate_appliance_energy (ac a) (fridge a) (washing_machine a)
                               (tv a) (microwave a) (water_heater a) in
  (base_energy + appliance_energy)%py.

(** The delta of the metric on line 147 and [monthly_cost] on line 150. *)
Definition daily_cost (total_energy : pynum) : pynum := (total_energy * int 6)%py.
Definition monthly_cost (total_energy : pynum) : pynum :=
  (total_energy * int 30 * int 6)%py.

(** *** The estimator as the specification words it: exact decimals *)

Inductive Appliance : Type := AC | Fridge | WashingMachine | TV | Microwave | WaterHeater.

Definition spec_base (h : HousingType) : Q :=
  match h with
  | OneBHK => 24 # 10
  | TwoBHK => 36 # 10
  | ThreeBHK => 48 # 10
  end.

Definition spec_contribution (a : Appliance) : Q :=
  match a with
  | AC => 12
  | Fridge => 36 # 10
  | WashingMachine => 2
  | TV => 9 # 10
  | Microwave => 6 # 10
  | WaterHeater => 4
  end.

Definition selected (a : ApplianceFlags) : list Appliance :=
  (if ac a then [AC] else []) ++ (if fridge a then [Fridge] else []) ++
  (if washing_machine a then [WashingMachine] else []) ++
  (if tv a then [TV] else []) ++ (if microwave a then [Microwave] else []) ++
  (if water_heater a then [WaterHeater] else []).

Definition spec_sum (l : list Appliance) : Q :=
  foldr (fun a acc => Qplus (spec_contribution a) acc) 0%Q l.

Definition spec_energy (h : HousingType) (l : list Appliance) : Q :=
  Qplus (spec_base h) (spec_sum l).

(** The contribution of an appliance as the program computes it. *)
Definition contribution (a : Appliance) : pynum :=
  match a with
  | AC => (lit 15 1 * int 8)%py
  | Fridge => (lit 15 2 * int 24)%py
  | WashingMachine => int 2
  | TV => (lit 15 2 * int 6)%py
  | Microwave => (lit 12 1 * lit 5 1)%py
  | WaterHeater => (int 2 * int 2)%py
  end.

(** The selected contributions added up from the left, starting at the int
    [0], in the order of the list. *)
Definition sum_left (l : list Appliance) : pynum :=
  foldl (fun acc a => (acc + contribution a)%py) (int 0) l.

(** [estimateDailyCost] and [estimateMonthlyCost] of the specification, with
    the rate as the float [6.0]. *)
Definition fixedRate : pynum := lit 60 1.
Definition estimateDailyCost (energyKWh : pynum) : pynum := (energyKWh * fixedRate)%py.
Definition estimateMonthlyCost (energyKWh : pynum) : pynum :=
  (energyKWh * int 30 * fixedRate)%py.

Definition no_appliances : ApplianceFlags := mkFlags false false false false false false.

(** Scenario 1 of the specification: AC and fridge only. *)
Definition ac_and_fridge : ApplianceFlags := mkFlags true true false false false false.

(** ** The clock

    A naive local [datetime] is the number of microseconds since
    1970-01-01T00:00:00 on the proleptic Gregorian calendar. *)

Module Clock.

Definition datetime : Type := Z.

Definition us_per_day : Z := 86400 * 1000000.

(** [timedelta(days=n)] *)
Definition timedelta_days (n : Z) : Z := n * us_per_day.

Definition day_of (t : datetime) : Z := t / us_per_day.
Definition time_of_day (t : datetime) : Z := t mod us_per_day.

Definition is_leap (y : Z) : bool :=
  (y mod 4 =? 0) && (negb (y mod 100 =? 0) || (y mod 400 =? 0)).

Definition days_in_month (y m : Z) : Z :=
  if m =? 2 then (if is_leap y then 29 else 28)
  else if (m =? 4) || (m =? 6) || (m =? 9) || (m =? 11) then 30
  else 31.

(** Day number of the civil date [y]-[m]-[d] (day 0 is 1970-01-01). *)
Definition days_from_civil (y m d : Z) : Z :=
  let y' := if m <=? 2 then y - 1 else y in
  let era := y' / 400 in
  let yoe := y' - era * 400 in
  let doy := (153 * (if 2 <? m then m - 3 else m + 9) + 2) / 5 + d - 1 in
  let doe := yoe * 365 + yoe / 4 - yoe / 100 + doy in
  era * 146097 + doe - 719468.

(** Civil date of a day number. *)
Definition civil_from_days (z : Z) : Z * Z * Z :=
  let z := z + 719468 in
  let era := z / 146097 in
  let doe := z - era * 146097 in
  let yoe := (doe - doe / 1460 + doe / 36524 - doe / 146096) / 365 in
  let doy := doe - (365 * yoe + yoe / 4 - yoe / 100) in
  let mp := (5 * doy + 2) / 153 in
  let d := doy - (153 * mp + 2) / 5 + 1 in
  let m := if mp <? 10 then mp + 3 else mp - 9 in
  let y := yoe + era * 400 in
  (if m <=? 2 then y + 1 else y, m, d).

Definition digit (n : Z) : ascii := ascii_of_N (48 + Z.to_N (n mod 10)).

Definition pad2 (n : Z) : string :=
  String (digit (n / 10)) (String (digit n) EmptyString).

Definition pad4 (n : Z) : string :=
  String (digit (n / 1000)) (String (digit (n / 100)) (pad2 n)).

Definition pad6 (n : Z) : string :=
  String (digit (n / 100000)) (String (digit (n / 10000)) (pad4 n)).

(** [t.strftime("%Y-%m-%d")], for the years 1000 to 9999 (a [datetime] has no
    year above 9999, and the padding of a year below 1000 depends on the
    platform). *)
Definition strftime_Ymd (t : datetime) : string :=
  let '(y, m, d) := civil_from_days (day_of t) in
  pad4 y ++ "-" ++ pad2 m ++ "-" ++ pad2 d.

(** [t.isoformat()]: the fraction is left out when it is zero. *)
Definition isoformat (t : datetime) : string :=
  let s := time_of_day t / 1000000 in
  let us := time_of_day t mod 1000000 in
  strftime_Ymd t ++ "T" ++ pad2 (s / 3600) ++ ":" ++ pad2 (s / 60 mod 60) ++ ":"
    ++ pad2 (s mod 60) ++ (if us =? 0 then "" else "." ++ pad6 us).

Definition digit_val (c : ascii) : option Z :=
  let n := N_of_ascii c in
  if ((48 <=? n) && (n <=? 57))%N then Some (Z.of_N n - 48) else None.

Definition is_hyphen (c : ascii) : bool := (N_of_ascii c =? 45)%N.

(** The civil date a [YYYY-MM-DD] text names, if it names one. *)
Definition parse_Ymd (s : string) : option (Z * Z * Z) :=
  match list_ascii_of_string s with
  | [y1; y2; y3; y4; h1; m1; m2; h2; d1; d2] =>
      a ← digit_val y1; b ← digit_val y2; c ← digit_val y3; d ← digit_val y4;
      e ← digit_val m1; f ← digit_val m2; g ← digit_val d1; h ← digit_val d2;
      let y := 1000 * a + 100 * b + 10 * c + d in
      let m := 10 * e + f in
      let dd := 10 * g + h in
      if is_hyphen h1 && is_hyphen h2 && (1 <=? m) && (m <=? 12)
         && (1 <=? dd) && (dd <=? days_in_month y m)
      then Some (y, m, dd) else None
  | _ => None
  end.

(** [pd.to_datetime] on the text that [strftime_Ymd] writes, the only text
    [save_daily_usage] stores: midnight of that day.  The years are those
    every pandas version can hold at nanosecond resolution.  [None] stands
    for a text this model does not read, not for an error: pandas reads
    other spellings of a date as well ([2024/01/09], [2024-1-9],
    [20240109]) and, at a coarser resolution, other years, and raises on
    the rest.  Nothing below is stated of such texts. *)
Definition to_datetime (s : string) : option datetime :=
  '(y, m, d) ← parse_Ymd s;
  if (1678 <=? y) && (y <=? 2261) then Some (days_from_civil y m d * us_per_day)
  else None.

(** The instants whose day [to_datetime] reads back: 1678-01-01 to
    2261-12-31. *)
Definition readable (t : datetime) : Prop :=
  days_from_civil 1678 1 1 <= day_of t <= days_from_civil 2261 12 31.

(** [datetime(y, m, d, hh, mm, ss, us)] *)
Definition mk_datetime (y m d hh mm ss us : Z) : datetime :=
  days_from_civil y m d * us_per_day + ((hh * 60 + mm) * 60 + ss) * 1000000 + us.

End Clock.

(** ** Session state *)

Module UserData.
(** The profile dictionary, with the twelve keys the save handler writes. *)
Record t : Type := mk {
  name : string;
  age : Z;
  city : string;
  area : string;
  flat_tenement : string;
  facility : string;
  ac : bool;
  fridge : bool;
  washing_machine : bool;
  tv : bool;
  microwave : bool;
  water_heater : bool
}.
End UserData.

Module UsageEntry.
Record t : Type := mk {
  date : string;
  total_energy : pynum;
  user_data : UserData.t;
  timestamp : string
}.
End UsageEntry.

(** [st.session_state]: [usage_data] starts as the empty list and
    [user_profile] as the empty dictionary, which is [None] here. *)
Record SessionState : Type := mkState {
  usage_data : list UsageEntry.t;
  user_profile : option UserData.t
}.

Definition initial_state : SessionState := mkState [] None.

(** ** History store *)

(** [save_daily_usage].  [now1] and [now2] are the two readings of
    [datetime.now()].  The loop leaves in [existing_index] the first position
    whose date is today's, which is what [list_find] returns. *)
Definition save_daily_usage (now1 now2 : Clock.datetime)
    (total_energy : pynum) (user_data : UserData.t)
    (usage_data : list UsageEntry.t) : list UsageEntry.t :=
  let today := Clock.strftime_Ymd now1 in
  let usage_entry :=
    UsageEntry.mk today total_energy user_data (Clock.isoformat now2) in
  let existing_index :=
    fst <$> list_find (fun entry => UsageEntry.date entry = today) usage_data in
  match existing_index with
  | Some i => <[i := usage_entry]> usage_data
  | None => usage_data ++ [usage_entry]
  end.

(** The scan and the assignment of [save_daily_usage], for the entry to write. *)
Definition upsert (usage_entry : UsageEntry.t)
    (usage_data : list UsageEntry.t) : list UsageEntry.t :=
  match fst <$> list_find (fun entry => UsageEntry.date entry = UsageEntry.date usage_entry)
                          usage_data with
  | Some i => <[i := usage_entry]> usage_data
  | None => usage_data ++ [usage_entry]
  end.

(** One call of [save_daily_usage] with its clock readings and arguments. *)
Record Save : Type := mkSave {
  save_now1 : Clock.datetime;
  save_now2 : Clock.datetime;
  save_total_energy : pynum;
  save_user_data : UserData.t
}.

Definition apply_save (usage_data : list UsageEntry.t) (s : Save) : list UsageEntry.t :=
  save_daily_usage (save_now1 s) (save_now2 s) (save_total_energy s)
                   (save_user_data s) usage_data.

(** The entry a call writes. *)
Definition entry_of (s : Save) : UsageEntry.t :=
  UsageEntry.mk (Clock.strftime_Ymd (save_now1 s)) (save_total_energy s)
                (save_user_data s) (Clock.isoformat (save_now2 s)).

Definition run_saves (saves : list Save) : list UsageEntry.t :=
  foldl apply_save [] saves.

(** The calendar day an entry is dated, when its date is read. *)
Definition entry_day (entry : UsageEntry.t) : option Z :=
  Clock.day_of <$> Clock.to_datetime (UsageEntry.date entry).

(** The entry was dated by a clock reading of a readable day. *)
Definition dated_by_clock (entry : UsageEntry.t) : Prop :=
  exists t, Clock.readable t /\ UsageEntry.date entry = Clock.strftime_Ymd t.

Definition entries_on (d : string) (usage_data : list UsageEntry.t) : list UsageEntry.t :=
  filter (fun entry => UsageEntry.date entry = d) usage_data.

(** ** Aggregator: the weekly slice *)

Module Row.
(** A row of the data frame: the entry with its date column converted by
    [pd.to_datetime]. *)
Record t : Type := mk {
  date : Clock.datetime;
  total_energy : pynum;
  user_data : UserData.t;
  timestamp : string
}.
End Row.

Definition to_row (entry : UsageEntry.t) : option Row.t :=
  d ← Clock.to_datetime (UsageEntry.date entry);
  Some (Row.mk d (UsageEntry.total_energy entry) (UsageEntry.user_data entry)
               (UsageEntry.timestamp entry)).

Definition date_le (r1 r2 : Row.t) : Prop := Row.date r1 <= Row.date r2.

#[global] Instance date_le_dec : RelDecision date_le.
Proof. intros r1 r2. unfold date_le. apply _. Defined.

(** [sort_values('date')]: ascending.  Rows with equal dates come out in an
    order pandas does not promise; the theorems below speak of the result up
    to that order. *)
Definition sort_values_date (df : list Row.t) : list Row.t := merge_sort date_le df.

(** [get_weekly_data], with [now] the reading of [datetime.now()].  The empty
    store gives the empty frame at once. *)
Definition get_weekly_data (now : Clock.datetime)
    (usage_data : list UsageEntry.t) : option (list Row.t) :=
  match usage_data with
  | [] => Some []
  | _ =>
      df ← mapM to_row usage_data;
      let end_date := now in
      let start_date := end_date - Clock.timedelta_days 7 in
      let weekly_data :=
        sort_values_date (filter (fun r => start_date <= Row.date r) df) in
      Some weekly_data
  end.

(** The window as the specification words it: the calendar days from seven
    days before today to today, both included. *)
Definition in_spec_window (now : Clock.datetime) (r : Row.t) : bool :=
  (Clock.day_of now - 7 <=? Clock.day_of (Row.date r))
  && (Clock.day_of (Row.date r) <=? Clock.day_of now).

(** Sample data: a profile, an entry of a given date, and noon of
    2024-01-10. *)
Definition sample_user : UserData.t :=
  UserData.mk "Asha" 30 "Pune" "Baner" "Flat" "2BHK" true true false false false false.

Definition entry_on (d : string) : UsageEntry.t :=
  UsageEntry.mk d (lit 192 1) sample_user (d ++ "T09:30:00").

Definition row_at (y m d : Z) (date : string) : Row.t :=
  Row.mk (Clock.mk_datetime y m d 0 0 0 0) (lit 192 1) sample_user (date ++ "T09:30:00").

Definition noon_2024_01_10 : Clock.datetime := Clock.mk_datetime 2024 1 10 12 0 0 0.

(** ** The save button *)

Inductive Dwelling : Type := Flat | Tenement.

Definition dwelling_label (d : Dwelling) : string :=
  match d with
  | Flat => "Flat"
  | Tenement => "Tenement"
  end.

(** What the widgets hold when the script runs: the select boxes can only
    return one of their options. *)
Record Widgets : Type := mkWidgets {
  w_name : string;
  w_age : Z;
  w_city : string;
  w_area : string;
  w_flat_tenement : Dwelling;
  w_facility : HousingType;
  w_appliances : ApplianceFlags
}.

Inductive Notice : Type :=
  | st_success (msg : string)
  | st_error (msg : string).

(** Lines 154-178.  A [str] is true when it is not empty. *)
Definition save_button (now1 now2 : Clock.datetime) (w : Widgets)
    (st : SessionState) : SessionState * Notice :=
  let facility := housing_label (w_facility w) in
  let total_energy := total_energy_of facility (w_appliances w) in
  match w_name w with
  | String _ _ =>
      let user_data :=
        UserData.mk (w_name w) (w_age w) (w_city w) (w_area w)
          (dwelling_label (w_flat_tenement w)) facility
          (ac (w_appliances w)) (fridge (w_appliances w))
          (washing_machine (w_appliances w)) (tv (w_appliances w))
          (microwave (w_appliances w)) (water_heater (w_appliances w)) in
      let st := mkState (usage_data st) (Some user_data) in
      let st :=
        mkState (save_daily_usage now1 now2 total_energy user_data (usage_data st))
                (user_profile st) in
      (st, st_success "✅ Usage data saved successfully!")
  | EmptyString => (st, st_error "❌ Please enter your name first!")
  end.

(** A session: the script is run once per click of the save button, with the
    clock readings and the widget values of that run. *)
Record Click : Type := mkClick {
  click_now1 : Clock.datetime;
  click_now2 : Clock.datetime;
  click_widgets : Widgets
}.

Definition click (st : SessionState) (c : Click) : SessionState :=
  (save_button (click_now1 c) (click_now2 c) (click_widgets c) st).1.

Definition run_clicks (clicks : list Click) : SessionState :=
  foldl click initial_state clicks.

(** The save a click makes, if its name is not empty. *)
Definition save_of_click (c : Click) : option Save :=
  let w := click_widgets c in
  match w_name w with
  | String _ _ =>
      Some (mkSave (click_now1 c) (click_now2 c)
              (total_energy_of (housing_label (w_facility w)) (w_appliances w))
              (UserData.mk (w_name w) (w_age w) (w_city w) (w_area w)
                 (dwelling_label (w_flat_tenement w)) (housing_label (w_facility w))
                 (ac (w_appliances w)) (fridge (w_appliances w))
                 (washing_machine (w_appliances w)) (tv (w_appliances w))
                 (microwave (w_appliances w)) (water_heater (w_appliances w))))
  | EmptyString => None
  end.

(** A save at noon of 2024-01-10. *)
Definition sample_save : Save :=
  mkSave noon_2024_01_10 noon_2024_01_10 (lit 192 1) sample_user.

(** A click with the name left empty, on a session that holds one entry. *)
Definition nameless_widgets : Widgets :=
  mkWidgets "" 30 "Pune" "Baner" Flat TwoBHK ac_and_fridge.

Definition sample_state : SessionState :=
  mkState [entry_on "2024-01-09"] (Some sample_user).

(** ** Exporter *)

Inductive Cell : Type :=
  | CellStr (s : string)
  | CellNum (n : pynum)
  | CellBool (b : bool)
  | CellNaN.

(** A dictionary with its keys in insertion order. *)
Definition record : Type := list (string * Cell).

Definition export_entry (entry : UsageEntry.t) : record :=
  let user_data := UsageEntry.user_data entry in
  [ ("Date", CellStr (UsageEntry.date entry));
    ("Total Energy (kWh)", CellNum (UsageEntry.total_energy entry));
    ("Cost (₹)", CellNum (UsageEntry.total_energy entry * int 6)%py);
    ("Name", CellStr (UserData.name user_data));
    ("City", CellStr (UserData.city user_data));
    ("Housing Type", CellStr (UserData.facility user_data));
    ("AC", CellBool (UserData.ac user_data));
    ("Fridge", CellBool (UserData.fridge user_data));
    ("Washing Machine", CellBool (UserData.washing_machine user_data));
    ("TV", CellBool (UserData.tv user_data));
    ("Microwave", CellBool (UserData.microwave user_data));
    ("Water Heater", CellBool (UserData.water_heater user_data)) ].

(** The loop of lines 285-301: one [append] per entry. *)
Definition export_data (usage_data : list UsageEntry.t) : list record :=
  foldl (fun export_data entry => export_data ++ [export_entry entry]) [] usage_data.

Record DataFrame : Type := mkFrame {
  columns : list string;
  rows : list (list Cell)
}.

Definition add_column (cols : list string) (k : string) : list string :=
  if decide (k ∈ cols) then cols else cols ++ [k].

Definition record_get (r : record) (k : string) : Cell :=
  default CellNaN (snd <$> (snd <$> list_find (fun kv => kv.1 = k) r)).

(** [pd.DataFrame(records)]: the columns are the keys in the order in which
    they first appear, and a key a record lacks gives NaN. *)
Definition DataFrame_of_records (records : list record) : DataFrame :=
  let cols := foldl (fun cols r => foldl add_column cols (r.*1)) [] records in
  mkFrame cols ((fun r => record_get r <$> cols) <$> records).

Section to_csv.
(** The text of one field as the csv writer puts it (number formatting and
    quoting), and the line terminator. *)
Variable render : Cell -> string.
Variable lineterminator : string.

Definition csv_line (fields : list Cell) : string :=
  String.concat "," (render <$> fields) ++ lineterminator.

(** [df.to_csv(index=False)] *)
Definition to_csv (df : DataFrame) : string :=
  csv_line (CellStr <$> columns df) ++ String.concat "" (csv_line <$> rows df).

(** The export section runs only when the store is not empty. *)
Definition export_csv (usage_data : list UsageEntry.t) : option string :=
  match usage_data with
  | [] => None
  | _ => Some (to_csv (DataFrame_of_records (export_data usage_data)))
  end.
End to_csv.

Definition export_df (usage_data : list UsageEntry.t) : option DataFrame :=
  match usage_data with
  | [] => None
  | _ => Some (DataFrame_of_records (export_data usage_data))
  end.

(** The columns in the order the specification lists them, with the label the
    program gives to each. *)
Module Column.
Inductive t : Type :=
  | Date | TotalEnergyKWh | Cost | Name | City | HousingType
  | AC | Fridge | WashingMachine | TV | Microwave | WaterHeater.

Definition all : list t :=
  [ Date; TotalEnergyKWh; Cost; Name; City; HousingType;
    AC; Fridge; WashingMachine; TV; Microwave; WaterHeater ].

Definition label (c : t) : string :=
  match c with
  | Date => "Date"
  | TotalEnergyKWh => "Total Energy (kWh)"
  | Cost => "Cost (₹)"
  | Name => "Name"
  | City => "City"
  | HousingType => "Housing Type"
  | AC => "AC"
  | Fridge => "Fridge"
  | WashingMachine => "Washing Machine"
  | TV => "TV"
  | Microwave => "Microwave"
  | WaterHeater => "Water Heater"
  end.
End Column.

Definition csv_columns : list string := Column.label <$> Column.all.

(** The cell of an entry under a column. *)
Definition csv_cell (entry : UsageEntry.t) (c : Column.t) : Cell :=
  let user_data := UsageEntry.user_data entry in
  match c with
  | Column.Date => CellStr (UsageEntry.date entry)
  | Column.TotalEnergyKWh => CellNum (UsageEntry.total_energy entry)
  | Column.Cost => CellNum (daily_cost (UsageEntry.total_energy entry))
  | Column.Name => CellStr (UserData.name user_data)
  | Column.City => CellStr (UserData.city user_data)
  | Column.HousingType => CellStr (UserData.facility user_data)
  | Column.AC => CellBool (UserData.ac user_data)
  | Column.Fridge => CellBool (UserData.fridge user_data)
  | Column.WashingMachine => CellBool (UserData.washing_machine user_data)
  | Column.TV => CellBool (UserData.tv user_data)
  | Column.Microwave => CellBool (UserData.microwave user_data)
  | Column.WaterHeater => CellBool (UserData.water_heater user_data)
  end.

Definition csv_row (entry : UsageEntry.t) : list Cell := csv_cell entry <$> Column.all.

(** ** Display

    [format(x, ".2f")]: the exact value of the double, rounded to hundredths
    with ties to even, written with its sign, its integer part and two
    decimals.  An [int] is converted to a [float] first (Python raises on an
    [int] too large for a [float]; the program has none). *)

Definition round_half_even (q : Q) : Z :=
  let n := Qnum q in
  let d := Z.pos (Qden q) in
  let f := n / d in
  match 2 * (n mod d) ?= d with
  | Lt => f
  | Gt => f + 1
  | Eq => if Z.even f then f else f + 1
  end.

(** The text of [n] hundredths, [n] not negative. *)
Definition hundredths_text (negative : bool) (n : Z) : string :=
  String.append (if negative then "-" else "")
    (String.append (pretty (Z.to_N (n / 100)))
       (String.append "." (Clock.pad2 (n mod 100)))).

Definition format_2f (x : pynum) : string :=
  match to_float x with
  | S754_nan => "nan"
  | S754_infinity s => if s then "-inf" else "inf"
  | S754_zero s => hundredths_text s 0
  | S754_finite s m e =>
      hundredths_text s
        (round_half_even (Qmult (Qabs (Binary64.to_Q (S754_finite s m e))) 100))
  end.

(** The exact decimal [q], a whole number of hundredths, in the same form. *)
Definition decimal_2 (q : Q) : string :=
  hundredths_text false (Qnum (Qmult q 100) / Z.pos (Qden (Qmult q 100))).

(** The five figures of lines 145-151. *)
Record Figures : Type := mkFigures {
  fig_base : string;
  fig_appliances : string;
  fig_total : string;
  fig_daily_cost : string;
  fig_monthly_cost : string
}.

Definition todays_calculation (facility : string) (a : ApplianceFlags) : Figures :=
  let base_energy := calculate_base_energy facility in
  let appliance_energy :=
    calculate_appliance_energy (ac a) (fridge a) (washing_machine a)
                               (tv a) (microwave a) (water_heater a) in
  let total_energy := (base_energy + appliance_energy)%py in
  let monthly_cost := (total_energy * int 30 * int 6)%py in
  mkFigures (String.append (format_2f base_energy) " kWh")
            (String.append (format_2f appliance_energy) " kWh")
            (String.append (format_2f total_energy) " kWh")
            (String.append "₹" (format_2f (total_energy * int 6)%py))
            (String.append "💰 Estimated Monthly Cost: ₹" (format_2f monthly_cost)).

(** ** Sidebar

    The values the widgets of lines 107-134 start from: each is read from the
    stored profile with [dict.get] and a default.  [list.index] raises when
    the stored facility is not an option, and [st.number_input] when the age
    is outside its bounds; both are [None] here. *)

Definition list_index (x : string) (l : list string) : option nat :=
  fst <$> list_find (fun y => y = x) l.

Definition profile_get {A : Type} (profile : option UserData.t)
    (field : UserData.t -> A) (default : A) : A :=
  match profile with
  | Some user_data => field user_data
  | None => default
  end.

Definition sidebar_defaults (profile : option UserData.t) : option Widgets :=
  let name := profile_get profile UserData.name "" in
  let age := profile_get profile UserData.age 25 in
  let city := profile_get profile UserData.city "" in
  let area := profile_get profile UserData.area "" in
  let flat_tenement_index :=
    if decide (profile_get profile UserData.flat_tenement "Flat" = "Flat")
    then 0%nat else 1%nat in
  facility_index ←
    list_index (profile_get profile UserData.facility "1BHK") ["1BHK"; "2BHK"; "3BHK"];
  flat_tenement ← [Flat; Tenement] !! flat_tenement_index;
  facility ← [OneBHK; TwoBHK; ThreeBHK] !! facility_index;
  if (1 <=? age) && (age <=? 120) then
    Some (mkWidgets name age city area flat_tenement facility
            (mkFlags (profile_get profile UserData.ac false)
                     (profile_get profile UserData.fridge false)
                     (profile_get profile UserData.washing_machine false)
                     (profile_get profile UserData.tv false)
                     (profile_get profile UserData.microwave false)
                     (profile_get profile UserData.water_heater false)))
  else None.

(** ** Analytics *)

(** Python's [<] on finite numbers compares the exact values. *)
Definition py_ltb (a b : pynum) : bool :=
  negb (Qle_bool (py_value b) (py_value a)).

(** The dictionary of lines 246-254, for the profile of the latest row. *)
Definition appliances_of (latest_data : UserData.t) : list (string * pynum) :=
  [ ("AC", if UserData.ac latest_data then lit 120 1 else int 0);
    ("Fridge", if UserData.fridge latest_data then lit 36 1 else int 0);
    ("Washing Machine", if UserData.washing_machine latest_data then lit 20 1 else int 0);
    ("TV", if UserData.tv latest_data then lit 9 1 else int 0);
    ("Microwave", if UserData.microwave latest_data then lit 6 1 else int 0);
    ("Water Heater", if UserData.water_heater latest_data then lit 40 1 else int 0);
    ("Base (Lights & Fans)", calculate_base_energy (UserData.facility latest_data)) ].

(** Line 257: the entries with a positive value. *)
Definition active_appliances (latest_data : UserData.t) : list (string * pynum) :=
  filter (fun kv => py_ltb (int 0) kv.2 = true) (appliances_of latest_data).

(** [weekly_data.iloc[-1]['user_data']] and its breakdown. *)
Definition latest_breakdown (weekly_data : list Row.t) : option (list (string * pynum)) :=
  (fun r => active_appliances (Row.user_data r)) <$> last weekly_data.

(** The label the breakdown gives to an appliance. *)
Definition appliance_label (a : Appliance) : string :=
  match a with
  | AC => "AC"
  | Fridge => "Fridge"
  | WashingMachine => "Washing Machine"
  | TV => "TV"
  | Microwave => "Microwave"
  | WaterHeater => "Water Heater"
  end.

Definition flags_of (user_data : UserData.t) : ApplianceFlags :=
  mkFlags (UserData.ac user_data) (UserData.fridge user_data)
          (UserData.washing_machine user_data) (UserData.tv user_data)
          (UserData.microwave user_data) (UserData.water_heater user_data).

(** The table of lines 206-209: date text, energy and cost of each row. *)
Definition display_data (weekly_data : list Row.t) : list (string * pynum * pynum) :=
  (fun r => (Clock.strftime_Ymd (Row.date r), Row.total_energy r,
             (Row.total_energy r * int 6)%py)) <$> weekly_data.

(** ** Download names *)

(** [t.strftime("%Y%m%d")] *)
Definition strftime_compact (t : Clock.datetime) : string :=
  let '(y, m, d) := Clock.civil_from_days (Clock.day_of t) in
  String.append (Clock.pad4 y) (String.append (Clock.pad2 m) (Clock.pad2 d)).

Definition file_name (now : Clock.datetime) (ext : string) : string :=
  String.append "electricity_usage_"
    (String.append (strftime_compact now) (String.append "." ext)).

(** A finite number, neither an infinity nor a nan: the numbers of which
    [py_value] is the exact value. *)
Definition is_finite (x : pynum) : bool :=
  match to_float x with
  | S754_zero _ | S754_finite _ _ _ => true
  | S754_infinity _ | S754_nan => false
  end.

Definition all_on : ApplianceFlags := mkFlags true true true true true true.

(** Whether an appliance is selected, and the flags with it switched on. *)
Definition is_on (x : Appliance) (a : ApplianceFlags) : bool :=
  match x with
  | AC => ac a
  | Fridge => fridge a
  | WashingMachine => washing_machine a
  | TV => tv a
  | Microwave => microwave a
  | WaterHeater => water_heater a
  end.

Definition switch_on (x : Appliance) (a : ApplianceFlags) : ApplianceFlags :=
  match x with
  | AC => mkFlags true (fridge a) (washing_machine a) (tv a) (microwave a) (water_heater a)
  | Fridge => mkFlags (ac a) true (washing_machine a) (tv a) (microwave a) (water_heater a)
  | WashingMachine => mkFlags (ac a) (fridge a) true (tv a) (microwave a) (water_heater a)
  | TV => mkFlags (ac a) (fridge a) (washing_machine a) true (microwave a) (water_heater a)
  | Microwave => mkFlags (ac a) (fridge a) (washing_machine a) (tv a) true (water_heater a)
  | WaterHeater => mkFlags (ac a) (fridge a) (washing_machine a) (tv a) (microwave a) true
  end.

(** The sum of the exact values of the slices of a breakdown. *)
Definition slices_sum (slices : list (string * pynum)) : Q :=
  foldr (fun kv acc => Qplus (py_value kv.2) acc) 0%Q slices.

(** The date text a save writes. *)
Definition save_date (s : Save) : string := Clock.strftime_Ymd (save_now1 s).

(** Strictly earlier. *)
Definition date_lt (r1 r2 : Row.t) : Prop := Row.date r1 < Row.date r2.

(** * Properties *)

(** ** Numbers *)

(** The literals of the program, as doubles. *)
Example literal_0_4 : lit 4 1 = PyFloat (S754_finite false 7205759403792794 (-54)).
Proof. reflexivity. Qed.

Example literal_0_8 : lit 8 1 = PyFloat (S754_finite false 7205759403792794 (-53)).
Proof. reflexivity. Qed.

Example literal_0_15 : lit 15 2 = PyFloat (S754_finite false 5404319552844595 (-55)).
Proof. reflexivity. Qed.

Example literal_2_4 : lit 24 1 = PyFloat (S754_finite false 5404319552844595 (-51)).
Proof. reflexivity. Qed.

Lemma float_of_int_6 : Binary64.of_Z 6 = Binary64.decimal 60 1.
Proof. reflexivity. Qed.

Lemma float_of_int_30 : Binary64.of_Z 30 = Binary64.decimal 300 1.
Proof. reflexivity. Qed.

(** The exact sum does not depend on the order of the appliances. *)
Lemma spec_sum_Permutation (l1 l2 : list Appliance) :
  l1 ≡ₚ l2 -> (spec_sum l1 == spec_sum l2)%Q.
Proof.
  induction 1 as [| a l1 l2 _ IH | a b l | l1 l2 l3 _ IH1 _ IH2]; simpl.
  - reflexivity.
  - now rewrite IH.
  - ring.
  - now rewrite IH1.
Qed.

(** The floating sum does: AC, fridge, microwave and water heater give 20.2
    in the order of the program and 20.200000000000003 in another. *)
Example sum_left_depends_on_order :
  sum_left [AC; Fridge; Microwave; WaterHeater]
    <> sum_left [AC; WaterHeater; Microwave; Fridge].
Proof. vm_compute. discriminate. Qed.

(** ** Estimator *)

Lemma appliance_energy_sum_left (a : ApplianceFlags) :
  calculate_appliance_energy (ac a) (fridge a) (washing_machine a)
                             (tv a) (microwave a) (water_heater a)
  = sum_left (selected a).
Proof. destruct a as [[] [] [] [] [] []]; reflexivity. Qed.

Lemma total_energy_error_bound (h : HousingType) (a : ApplianceFlags) :
  (Qabs (py_value (total_energy_of (housing_label h) a)
         - spec_energy h (selected a)) <= 1 # 10 ^ 14)%Q.
Proof.
  apply Qle_bool_iff.
  destruct h, a as [[] [] [] [] [] []]; vm_compute; reflexivity.
Qed.

(** C1, as stated, fails: with no appliance selected the 1BHK estimate is
    2.4000000000000004, which Python's [==] tells apart from [2.4] and whose
    exact value is not 24/10. *)
Lemma total_energy_exact_counterexample :
  py_eqb (total_energy_of (housing_label OneBHK) no_appliances) (lit 24 1) = false
  /\ ~ (py_value (total_energy_of (housing_label OneBHK) no_appliances)
        == spec_energy OneBHK (selected no_appliances))%Q.
Proof.
  split; [reflexivity |].
  intros H. apply Qeq_bool_iff in H. vm_compute in H. discriminate H.
Qed.

(** C1, amended: for every housing type and every choice of the six flags the
    estimate is the double-precision sum of the base and of the selected
    contributions, added from the left in the order AC, fridge, washing
    machine, TV, microwave, water heater; it is within 10^-14 of the exact
    decimal total, in whatever order [l] lists the selected appliances; with
    no appliance selected it is the base as the program computes it, the
    double one unit in the last place above 2.4, 3.6 or 4.8. *)
Theorem total_energy_estimate (h : HousingType) (a : ApplianceFlags) (l : list Appliance) :
  l ≡ₚ selected a ->
  total_energy_of (housing_label h) a
    = (calculate_base_energy (housing_label h) + sum_left (selected a))%py
  /\ (Qabs (py_value (total_energy_of (housing_label h) a) - spec_energy h l)
        <= 1 # 10 ^ 14)%Q
  /\ total_energy_of (housing_label h) no_appliances
      = calculate_base_energy (housing_label h)
  /\ calculate_base_energy (housing_label h)
      = PyFloat (match h with
                 | OneBHK => S754_finite false 5404319552844596 (-51)
                 | TwoBHK => S754_finite false 8106479329266894 (-51)
                 | ThreeBHK => S754_finite false 5404319552844596 (-50)
                 end)
  /\ (0 < py_value (calculate_base_energy (housing_label h)) - spec_base h
        <= 1 # 10 ^ 15)%Q.
Proof.
  intros Hl. repeat split.
  - unfold total_energy_of. now rewrite appliance_energy_sum_left.
  - unfold spec_energy. rewrite (spec_sum_Permutation _ _ Hl).
    apply total_energy_error_bound.
  - destruct h; reflexivity.
  - destruct h; reflexivity.
  - destruct h; reflexivity.
  - apply Qle_bool_iff. destruct h; reflexivity.
Qed.

Lemma total_energy_estimate_witness :
  [Fridge; AC] ≡ₚ selected ac_and_fridge
  /\ total_energy_of (housing_label TwoBHK) ac_and_fridge
      = (calculate_base_energy (housing_label TwoBHK) + sum_left (selected ac_and_fridge))%py
  /\ (Qabs (py_value (total_energy_of (housing_label TwoBHK) ac_and_fridge)
             - spec_energy TwoBHK [Fridge; AC]) <= 1 # 10 ^ 14)%Q.
Proof.
  assert (H : [Fridge; AC] ≡ₚ selected ac_and_fridge) by (simpl; apply perm_swap).
  split; [exact H |].
  destruct (total_energy_estimate TwoBHK ac_and_fridge [Fridge; AC] H) as (H1 & H2 & _).
  split; [exact H1 | exact H2].
Defined.

(** C5, as stated, fails: for 2BHK with AC and fridge the daily cost is
    115.19999999999999, not 115.2. *)
Lemma daily_cost_scenario_counterexample :
  py_eqb (daily_cost (total_energy_of (housing_label TwoBHK) ac_and_fridge))
         (lit 1152 1) = false.
Proof. reflexivity. Qed.

(** C5, amended: for every float energy the daily cost is the double product
    e * 6.0 and the monthly cost the double product (e * 30) * 6.0, and for
    every int energy they are 6 and 180 times that int; for 2BHK with AC and
    fridge the energy is the double 19.2, the monthly cost the double 3456.0,
    and the daily cost the double 115.19999999999999, which is within
    2 * 10^-14 of 115.2. *)
Theorem cost_estimates (e : Binary64.float) (z : Z) :
  daily_cost (PyFloat e) = estimateDailyCost (PyFloat e)
  /\ monthly_cost (PyFloat e) = estimateMonthlyCost (PyFloat e)
  /\ daily_cost (PyInt z) = PyInt (z * 6)
  /\ monthly_cost (PyInt z) = PyInt (z * 30 * 6)
  /\ total_energy_of (housing_label TwoBHK) ac_and_fridge = lit 192 1
  /\ monthly_cost (total_energy_of (housing_label TwoBHK) ac_and_fridge) = lit 34560 1
  /\ daily_cost (total_energy_of (housing_label TwoBHK) ac_and_fridge)
      = PyFloat (S754_finite false 8106479329266892 (-46))
  /\ (Qabs (py_value (daily_cost (total_energy_of (housing_label TwoBHK) ac_and_fridge))
             - (1152 # 10)) <= 2 # 10 ^ 14)%Q.
Proof.
  repeat split; try reflexivity.
  apply Qle_bool_iff. reflexivity.
Qed.

(** ** Base-load lookup *)

Lemma N_of_lower_ascii (c : ascii) :
  N_of_ascii (lower_ascii c)
  = (if (65 <=? N_of_ascii c) && (N_of_ascii c <=? 90)
     then N_of_ascii c + 32 else N_of_ascii c)%N.
Proof.
  unfold lower_ascii. pose proof (N_ascii_bounded c) as Hc.
  destruct (N.leb_spec 65 (N_of_ascii c)), (N.leb_spec (N_of_ascii c) 90);
    simpl; try reflexivity.
  apply N_ascii_embedding. lia.
Qed.

(** Two characters with the same small letter agree on being a given byte
    outside ASCII. *)
Lemma lower_ascii_eq_high (c d : ascii) (n : N) :
  lower_ascii c = lower_ascii d -> (128 <= n)%N ->
  (N_of_ascii c =? n)%N = (N_of_ascii d =? n)%N.
Proof.
  intros H Hn. apply (f_equal N_of_ascii) in H. rewrite !N_of_lower_ascii in H.
  destruct (N.leb_spec 65 (N_of_ascii c)), (N.leb_spec (N_of_ascii c) 90),
           (N.leb_spec 65 (N_of_ascii d)), (N.leb_spec (N_of_ascii d) 90);
    simpl in H;
    destruct (N.eqb_spec (N_of_ascii c) n), (N.eqb_spec (N_of_ascii d) n);
    try reflexivity; lia.
Qed.

Lemma is_kelvin_case_variant (c c1 c2 d d1 d2 : ascii) :
  lower_ascii c = lower_ascii d -> lower_ascii c1 = lower_ascii d1 ->
  lower_ascii c2 = lower_ascii d2 -> is_kelvin c c1 c2 = is_kelvin d d1 d2.
Proof.
  intros H H1 H2. unfold is_kelvin.
  rewrite (lower_ascii_eq_high c d 226 H), (lower_ascii_eq_high c1 d1 132 H1),
          (lower_ascii_eq_high c2 d2 170 H2) by lia.
  reflexivity.
Qed.

Lemma lower_unfold_3 (c c1 c2 : ascii) (r : string) :
  lower (String c (String c1 (String c2 r)))
  = if is_kelvin c c1 c2 then String "k" (lower r)
    else String (lower_ascii c) (lower (String c1 (String c2 r))).
Proof. reflexivity. Qed.

Lemma case_variant_lower_bounded (n : nat) :
  forall s t : string, (String.length s <= n)%nat -> case_variant s t -> lower s = lower t.
Proof.
  induction n as [| n IH]; intros s t Hlen Hcv.
  - destruct s, t; simpl in *; try contradiction; [reflexivity | lia].
  - destruct s as [| c s], t as [| d t]; simpl in Hcv; try contradiction; [reflexivity |].
    destruct Hcv as [Hc Hcv].
    destruct s as [| c1 s], t as [| d1 t]; simpl in Hcv; try contradiction.
    { simpl. now rewrite Hc. }
    destruct Hcv as [Hc1 Hcv].
    destruct s as [| c2 s], t as [| d2 t]; simpl in Hcv; try contradiction.
    { simpl. now rewrite Hc, Hc1. }
    destruct Hcv as [Hc2 Hcv].
    rewrite (lower_unfold_3 c c1 c2 s), (lower_unfold_3 d d1 d2 t).
    rewrite (is_kelvin_case_variant c c1 c2 d d1 d2 Hc Hc1 Hc2).
    destruct (is_kelvin d d1 d2).
    + f_equal. apply IH; [simpl in Hlen; lia | exact Hcv].
    + rewrite Hc. f_equal. apply IH; [simpl in Hlen |- *; lia |].
      simpl. auto.
Qed.

Lemma case_variant_lower (s t : string) : case_variant s t -> lower s = lower t.
Proof. apply (case_variant_lower_bounded (String.length s)). lia. Qed.

Lemma base_consumption_lookup_ne (k : string) :
  k <> "1bhk" -> k <> "2bhk" -> k <> "3bhk" -> base_consumption !! k = None.
Proof.
  intros H1 H2 H3. unfold base_consumption.
  rewrite !lookup_insert_ne by congruence. apply lookup_empty.
Qed.

(** C6: a facility whose lowercase form is none of the three keys of the
    table gets the int 0; the lookup is a total function, so nothing is
    raised. *)
Theorem base_energy_default (facility : string) :
  lower facility <> "1bhk" -> lower facility <> "2bhk" -> lower facility <> "3bhk" ->
  calculate_base_energy facility = int 0.
Proof.
  intros H1 H2 H3. unfold calculate_base_energy.
  now rewrite base_consumption_lookup_ne.
Qed.

Lemma base_energy_default_witness :
  lower "4BHK" <> "1bhk" /\ lower "4BHK" <> "2bhk" /\ lower "4BHK" <> "3bhk"
  /\ calculate_base_energy "4BHK" = int 0.
Proof.
  assert (H1 : lower "4BHK" <> "1bhk") by (vm_compute; discriminate).
  assert (H2 : lower "4BHK" <> "2bhk") by (vm_compute; discriminate).
  assert (H3 : lower "4BHK" <> "3bhk") by (vm_compute; discriminate).
  exact (conj H1 (conj H2 (conj H3 (base_energy_default "4BHK" H1 H2 H3)))).
Defined.

(** C10, as stated, fails in its example: the three spellings of 1BHK yield
    2.4000000000000004, which Python's [==] tells apart from [2.4]. *)
Lemma base_energy_2_4_counterexample :
  py_eqb (calculate_base_energy "1BHK") (lit 24 1) = false
  /\ py_eqb (calculate_base_energy "1bhk") (lit 24 1) = false
  /\ py_eqb (calculate_base_energy "1Bhk") (lit 24 1) = false.
Proof. repeat split; reflexivity. Qed.

(** C10, amended: the lookup gives the same number for a facility and for
    every case variant of it; "1BHK", "1bhk" and "1Bhk" all yield the double
    2.4000000000000004 that 2 * 0.4 + 2 * 0.8 evaluates to. *)
Theorem base_energy_case_insensitive (s t : string) :
  case_variant s t ->
  calculate_base_energy s = calculate_base_energy t
  /\ calculate_base_energy "1BHK" = (int 2 * lit 4 1 + int 2 * lit 8 1)%py
  /\ calculate_base_energy "1bhk" = calculate_base_energy "1BHK"
  /\ calculate_base_energy "1Bhk" = calculate_base_energy "1BHK"
  /\ calculate_base_energy "1BHK" = PyFloat (S754_finite false 5404319552844596 (-51)).
Proof.
  intros H. split.
  - unfold calculate_base_energy. now rewrite (case_variant_lower s t H).
  - repeat split; reflexivity.
Qed.

Lemma base_energy_case_insensitive_witness :
  case_variant "3bHk" "3BHK"
  /\ calculate_base_energy "3bHk" = calculate_base_energy "3BHK".
Proof.
  assert (H : case_variant "3bHk" "3BHK") by (simpl; repeat split; reflexivity).
  split; [exact H |].
  exact (proj1 (base_energy_case_insensitive "3bHk" "3BHK" H)).
Defined.

(** ** Calendar

    The day number of the civil date of a day is that day, the civil date is
    a date of the calendar, and the text [strftime_Ymd] writes is read back
    by [to_datetime] as midnight of the same day. *)

(** Floor divisions by constants are linear constraints. *)
Ltac div_lia := Z.div_mod_to_equations; lia.

Lemma is_leap_spec (y : Z) :
  Clock.is_leap y = true <-> (y mod 4 = 0 /\ (y mod 100 <> 0 \/ y mod 400 = 0)).
Proof.
  unfold Clock.is_leap.
  rewrite andb_true_iff, orb_true_iff, negb_true_iff, !Z.eqb_eq, Z.eqb_neq. tauto.
Qed.

Lemma civil_from_days_inverse (z : Z) :
  let '(y, m, d) := Clock.civil_from_days z in
  Clock.days_from_civil y m d = z /\ 1 <= m <= 12 /\ 1 <= d <= Clock.days_in_month y m.
Proof.
  unfold Clock.civil_from_days.
  remember (z + 719468) as z' eqn:Ez.
  remember (z' / 146097) as era eqn:Eera.
  remember (z' - era * 146097) as doe eqn:Edoe.
  remember ((doe - doe / 1460 + doe / 36524 - doe / 146096) / 365) as yoe eqn:Eyoe.
  remember (doe - (365 * yoe + yoe / 4 - yoe / 100)) as doy eqn:Edoy.
  remember ((5 * doy + 2) / 153) as mp eqn:Emp.
  remember (doy - (153 * mp + 2) / 5 + 1) as d eqn:Ed.
  assert (Hdoe : 0 <= doe < 146097) by div_lia.
  assert (Hyoe : 0 <= yoe < 400) by div_lia.
  assert (Hdoy : 0 <= doy <= 365) by div_lia.
  assert (Hmp : 0 <= mp <= 11) by div_lia.
  assert (Hleap : doy = 365 -> (yoe + 1) mod 4 = 0 /\ ((yoe + 1) mod 100 <> 0 \/ yoe = 399))
    by (intros H; div_lia).
  assert (Hera : (yoe + era * 400) / 400 = era) by div_lia.
  split; [| split].
  - unfold Clock.days_from_civil.
    destruct (Z.ltb_spec mp 10).
    + rewrite (proj2 (Z.leb_gt (mp + 3) 2)), (proj2 (Z.ltb_lt 2 (mp + 3))) by lia.
      rewrite Hera. replace (mp + 3 - 3) with mp by lia.
      replace (yoe + era * 400 - era * 400) with yoe by lia. lia.
    + rewrite (proj2 (Z.leb_le (mp - 9) 2)), (proj2 (Z.ltb_ge 2 (mp - 9))) by lia.
      replace (yoe + era * 400 + 1 - 1) with (yoe + era * 400) by lia.
      rewrite Hera. replace (mp - 9 + 9) with mp by lia.
      replace (yoe + era * 400 - era * 400) with yoe by lia. lia.
  - destruct (Z.ltb_spec mp 10); lia.
  - assert (Hcases : mp = 0 \/ mp = 1 \/ mp = 2 \/ mp = 3 \/ mp = 4 \/ mp = 5 \/ mp = 6
                     \/ mp = 7 \/ mp = 8 \/ mp = 9 \/ mp = 10 \/ mp = 11) by lia.
    remember (if mp <? 10 then mp + 3 else mp - 9) as m eqn:Em.
    destruct Hcases as [E|[E|[E|[E|[E|[E|[E|[E|[E|[E|[E|E]]]]]]]]]]];
      rewrite E in Em; vm_compute in Em; subst m;
      cbn -[Z.div Z.modulo Z.mul Z.add Z.sub Clock.is_leap].
    all: try div_lia.
    destruct (Clock.is_leap (yoe + era * 400 + 1)) eqn:L.
    + div_lia.
    + assert (doy <> 365).
      { intros H365. destruct (Hleap H365) as [H4 H100].
        assert (Clock.is_leap (yoe + era * 400 + 1) = true); [| congruence].
        apply is_leap_spec. div_lia. }
      div_lia.
Qed.

Lemma civil_from_days_year (z : Z) :
  Clock.days_from_civil 1678 1 1 <= z <= Clock.days_from_civil 2261 12 31 ->
  1678 <= (Clock.civil_from_days z).1.1 <= 2261.
Proof.
  change (Clock.days_from_civil 1678 1 1) with (-106650).
  change (Clock.days_from_civil 2261 12 31) with 106650.
  intros Hz. unfold Clock.civil_from_days.
  remember (z + 719468) as z' eqn:Ez.
  remember (z' / 146097) as era eqn:Eera.
  remember (z' - era * 146097) as doe eqn:Edoe.
  remember ((doe - doe / 1460 + doe / 36524 - doe / 146096) / 365) as yoe eqn:Eyoe.
  remember (doe - (365 * yoe + yoe / 4 - yoe / 100)) as doy eqn:Edoy.
  remember ((5 * doy + 2) / 153) as mp eqn:Emp.
  cbn [fst].
  destruct (Z.ltb_spec mp 10).
  - rewrite (proj2 (Z.leb_gt (mp + 3) 2)) by div_lia.
    div_lia.
  - assert (0 <= mp <= 11) by div_lia.
    rewrite (proj2 (Z.leb_le (mp - 9) 2)) by lia.
    div_lia.
Qed.

Lemma digit_val_digit (n : Z) : Clock.digit_val (Clock.digit n) = Some (n mod 10).
Proof.
  unfold Clock.digit_val, Clock.digit.
  pose proof (Z.mod_pos_bound n 10 ltac:(lia)) as Hn.
  rewrite N_ascii_embedding by lia.
  destruct (N.leb_spec 48 (48 + Z.to_N (n mod 10))), (N.leb_spec (48 + Z.to_N (n mod 10)) 57);
    try lia.
  cbn. f_equal. lia.
Qed.

Lemma days_in_month_bound (y m : Z) : 28 <= Clock.days_in_month y m <= 31.
Proof.
  unfold Clock.days_in_month.
  destruct (m =? 2); [destruct (Clock.is_leap y); lia |].
  destruct (_ || _); lia.
Qed.

Lemma parse_Ymd_pad (y m d : Z) :
  0 <= y <= 9999 -> 1 <= m <= 12 -> 1 <= d <= Clock.days_in_month y m ->
  Clock.parse_Ymd (Clock.pad4 y ++ "-" ++ Clock.pad2 m ++ "-" ++ Clock.pad2 d) = Some (y, m, d).
Proof.
  intros Hy Hm Hd. pose proof (days_in_month_bound y m) as Hdim.
  unfold Clock.parse_Ymd, Clock.pad4, Clock.pad2.
  cbv [String.append list_ascii_of_string].
  rewrite !digit_val_digit. cbn [mbind option_bind].
  change (Clock.is_hyphen "-") with true. cbn [andb].
  replace (1000 * ((y / 1000) mod 10) + 100 * ((y / 100) mod 10)
           + 10 * ((y / 10) mod 10) + y mod 10) with y
    by div_lia.
  replace (10 * ((m / 10) mod 10) + m mod 10) with m by div_lia.
  replace (10 * ((d / 10) mod 10) + d mod 10) with d by div_lia.
  rewrite !(proj2 (Z.leb_le _ _)) by lia. reflexivity.
Qed.

Lemma to_datetime_strftime (t : Clock.datetime) :
  Clock.readable t ->
  Clock.to_datetime (Clock.strftime_Ymd t) = Some (Clock.day_of t * Clock.us_per_day).
Proof.
  intros Ht. unfold Clock.to_datetime, Clock.strftime_Ymd.
  pose proof (civil_from_days_inverse (Clock.day_of t)) as Hinv.
  pose proof (civil_from_days_year (Clock.day_of t) Ht) as Hyear.
  destruct (Clock.civil_from_days (Clock.day_of t)) as [[y m] d].
  cbn [fst] in Hyear. destruct Hinv as (Hz & Hm & Hd).
  rewrite parse_Ymd_pad by (try assumption; lia).
  cbn [mbind option_bind].
  rewrite !(proj2 (Z.leb_le _ _)) by lia. cbn [andb]. now rewrite Hz.
Qed.

(** ** History store *)

Section upsert.
Context (e : UsageEntry.t).
Local Abbreviation today := (UsageEntry.date e).

(** The scan stops at the first entry dated today. *)
Lemma upsert_cons (x : UsageEntry.t) (l : list UsageEntry.t) :
  upsert e (x :: l)
  = if decide (UsageEntry.date x = today) then e :: l else x :: upsert e l.
Proof.
  unfold upsert. cbn [list_find].
  destruct (decide (UsageEntry.date x = today)) as [E | E]; [reflexivity |].
  destruct (list_find _ l) as [[i y] |]; reflexivity.
Qed.

Lemma upsert_dates (l : list UsageEntry.t) :
  today ∈ UsageEntry.date <$> l ->
  UsageEntry.date <$> upsert e l = UsageEntry.date <$> l.
Proof.
  induction l as [| x l IH]; intros Hin.
  - inversion Hin.
  - rewrite upsert_cons. destruct (decide _) as [E | E]; cbn.
    + now rewrite E.
    + f_equal. apply IH. cbn in Hin.
      apply elem_of_cons in Hin as [Hin | Hin]; [congruence | exact Hin].
Qed.

Lemma upsert_fresh (l : list UsageEntry.t) :
  today ∉ UsageEntry.date <$> l -> upsert e l = l ++ [e].
Proof.
  induction l as [| x l IH]; intros Hin; [reflexivity |].
  rewrite upsert_cons. cbn in Hin. apply not_elem_of_cons in Hin as [Hx Hin].
  destruct (decide _) as [E | E]; [congruence |].
  cbn. f_equal. now apply IH.
Qed.

Lemma upsert_NoDup (l : list UsageEntry.t) :
  NoDup (UsageEntry.date <$> l) -> NoDup (UsageEntry.date <$> upsert e l).
Proof.
  intros Hl. destruct (decide (today ∈ UsageEntry.date <$> l)) as [Hin | Hin].
  - now rewrite upsert_dates.
  - rewrite upsert_fresh, fmap_app by exact Hin.
    apply NoDup_app. split; [exact Hl |]. split.
    + intros d Hd Hd'. apply list_elem_of_singleton in Hd'. subst d. exact (Hin Hd).
    + apply NoDup_singleton.
Qed.

Lemma entries_on_absent (d : string) (l : list UsageEntry.t) :
  d ∉ UsageEntry.date <$> l -> entries_on d l = [].
Proof.
  induction l as [| x l IH]; intros Hin; [reflexivity |].
  cbn in Hin. apply not_elem_of_cons in Hin as [Hx Hin].
  unfold entries_on. rewrite filter_cons_False by congruence. now apply IH.
Qed.

(** After the save exactly one entry is dated today, and it is the new one. *)
Lemma upsert_entries_today (l : list UsageEntry.t) :
  NoDup (UsageEntry.date <$> l) -> entries_on today (upsert e l) = [e].
Proof.
  induction l as [| x l IH]; intros Hl.
  - unfold entries_on. cbn. now rewrite decide_True.
  - rewrite upsert_cons. cbn in Hl. apply NoDup_cons in Hl as [Hx Hl].
    unfold entries_on in *. destruct (decide _) as [E | E].
    + rewrite filter_cons_True by reflexivity. f_equal.
      apply entries_on_absent. now rewrite <- E.
    + rewrite filter_cons_False by exact E. now apply IH.
Qed.

(** The entries of the other dates are left as they were. *)
Lemma upsert_entries_other (d : string) (l : list UsageEntry.t) :
  d <> today -> entries_on d (upsert e l) = entries_on d l.
Proof.
  intros Hd. induction l as [| x l IH].
  - unfold entries_on. cbn. rewrite decide_False by congruence. reflexivity.
  - rewrite upsert_cons. unfold entries_on in *. destruct (decide _) as [E | E].
    + rewrite !filter_cons_False by congruence. reflexivity.
    + rewrite !filter_cons. now rewrite IH.
Qed.

(** An entry dated today is overwritten in its place. *)
Lemma upsert_replaces (l : list UsageEntry.t) (i : nat) (old : UsageEntry.t) :
  NoDup (UsageEntry.date <$> l) ->
  l !! i = Some old -> UsageEntry.date old = today ->
  upsert e l = <[i := e]> l.
Proof.
  revert i. induction l as [| x l IH]; intros i Hl Hi Hold; [discriminate |].
  rewrite upsert_cons. cbn in Hl. apply NoDup_cons in Hl as [Hx Hl].
  destruct i as [| i]; cbn in Hi.
  - injection Hi as ->. now rewrite decide_True.
  - destruct (decide _) as [E | E].
    + exfalso. apply Hx. rewrite E, <- Hold.
      apply list_elem_of_fmap. exists old. split; [reflexivity |].
      eapply list_elem_of_lookup_2. exact Hi.
    + cbn. f_equal. now apply (IH i).
Qed.
End upsert.

Lemma apply_save_upsert (l : list UsageEntry.t) (s : Save) :
  apply_save l s = upsert (entry_of s) l.
Proof. reflexivity. Qed.

Lemma run_saves_snoc (saves : list Save) (s : Save) :
  run_saves (saves ++ [s]) = apply_save (run_saves saves) s.
Proof. unfold run_saves. now rewrite foldl_app. Qed.

Lemma run_saves_NoDup (saves : list Save) :
  NoDup (UsageEntry.date <$> run_saves saves).
Proof.
  induction saves as [| s saves IH] using rev_ind.
  - apply NoDup_nil_2.
  - rewrite run_saves_snoc, apply_save_upsert. now apply upsert_NoDup.
Qed.

Lemma strftime_Ymd_same_day (t1 t2 : Clock.datetime) :
  Clock.day_of t1 = Clock.day_of t2 -> Clock.strftime_Ymd t1 = Clock.strftime_Ymd t2.
Proof. unfold Clock.strftime_Ymd. now intros ->. Qed.

Lemma upsert_elem_of (e x : UsageEntry.t) (l : list UsageEntry.t) :
  x ∈ upsert e l -> x = e \/ x ∈ l.
Proof.
  induction l as [| y l IH]; rewrite ?upsert_cons.
  - intros H. apply list_elem_of_singleton in H. now left.
  - destruct (decide _) as [E | E]; intros H; apply elem_of_cons in H as [H | H].
    + now left.
    + right. now apply list_elem_of_further.
    + right. subst x. apply list_elem_of_here.
    + destruct (IH H) as [-> | H']; [now left | right; now apply list_elem_of_further].
Qed.

Lemma run_saves_dated_by_clock (saves : list Save) :
  Forall (fun s => Clock.readable (save_now1 s)) saves ->
  Forall dated_by_clock (run_saves saves).
Proof.
  induction saves as [| s saves IH] using rev_ind; intros Hsaves.
  - constructor.
  - apply Forall_app in Hsaves as [Hsaves Hs]. rewrite Forall_singleton in Hs.
    rewrite run_saves_snoc, apply_save_upsert. apply Forall_forall. intros x Hx.
    apply upsert_elem_of in Hx as [-> | Hx].
    + exists (save_now1 s). split; [exact Hs | reflexivity].
    + specialize (IH Hsaves). rewrite Forall_forall in IH. now apply IH.
Qed.

Lemma entry_day_dated_by_clock (entry : UsageEntry.t) :
  dated_by_clock entry ->
  exists k, entry_day entry = Some k
            /\ UsageEntry.date entry = Clock.strftime_Ymd (k * Clock.us_per_day).
Proof.
  intros (t & Ht & Hdate). exists (Clock.day_of t). unfold entry_day.
  rewrite Hdate, (to_datetime_strftime t Ht). cbn. split.
  - f_equal. unfold Clock.day_of. now rewrite Z.div_mul.
  - apply strftime_Ymd_same_day. unfold Clock.day_of. now rewrite Z.div_mul.
Qed.

(** The entries of a store dated by the clock lie on pairwise different
    calendar days as soon as their date texts are pairwise different. *)
Lemma entry_days_NoDup (l : list UsageEntry.t) :
  Forall dated_by_clock l -> NoDup (UsageEntry.date <$> l) ->
  exists days, mapM entry_day l = Some days /\ NoDup days.
Proof.
  intros Hl Hnd.
  assert (H : exists days, Forall2 (fun entry k => entry_day entry = Some k) l days
                           /\ UsageEntry.date <$> l
                              = (fun k => Clock.strftime_Ymd (k * Clock.us_per_day)) <$> days).
  { clear Hnd. induction Hl as [| entry l Hentry _ (days & IH1 & IH2)].
    - exists []. split; [constructor | reflexivity].
    - destruct (entry_day_dated_by_clock entry Hentry) as (k & Hk & Hdate).
      exists (k :: days). split; [now constructor |]. cbn. now rewrite Hdate, IH2. }
  destruct H as (days & H1 & H2). exists days. split; [now apply mapM_Some |].
  rewrite H2 in Hnd. now apply NoDup_fmap_1 in Hnd.
Qed.

(** C2: after any sequence of saves from the empty store no two entries carry
    the same date, and when the clock readings are readable days no two
    entries lie on the same calendar day; a further save leaves exactly one
    entry for its date, the one it wrote; it overwrites in place the entry
    that had this date, appends when there was none, and leaves the entries
    of all other dates untouched; a second save on the same calendar day
    again leaves exactly one entry for that date, with the values of the
    second save. *)
Theorem save_upserts_by_date (saves : list Save) (s s' : Save) :
  let store := run_saves saves in
  let today := Clock.strftime_Ymd (save_now1 s) in
  NoDup (UsageEntry.date <$> store)
  /\ (Forall (fun s => Clock.readable (save_now1 s)) saves ->
      exists days, mapM entry_day store = Some days /\ NoDup days)
  /\ NoDup (UsageEntry.date <$> apply_save store s)
  /\ entries_on today (apply_save store s) = [entry_of s]
  /\ (forall d, d <> today -> entries_on d (apply_save store s) = entries_on d store)
  /\ (forall i old, store !! i = Some old -> UsageEntry.date old = today ->
        apply_save store s = <[i := entry_of s]> store)
  /\ (today ∉ UsageEntry.date <$> store -> apply_save store s = store ++ [entry_of s])
  /\ (Clock.day_of (save_now1 s') = Clock.day_of (save_now1 s) ->
        entries_on today (apply_save (apply_save store s) s') = [entry_of s']
        /\ length (apply_save (apply_save store s) s') = length (apply_save store s)).
Proof.
  intros store today. pose proof (run_saves_NoDup saves) as Hnd. fold store in Hnd.
  assert (Hnd' : NoDup (UsageEntry.date <$> apply_save store s))
    by (rewrite apply_save_upsert; now apply upsert_NoDup).
  assert (Hone : entries_on today (apply_save store s) = [entry_of s])
    by (rewrite apply_save_upsert; now apply (upsert_entries_today (entry_of s))).
  split; [exact Hnd |].
  split; [intros Hsaves; apply entry_days_NoDup;
          [now apply run_saves_dated_by_clock | exact Hnd] |].
  split; [exact Hnd' |].
  split; [exact Hone |].
  split; [intros d Hd; rewrite apply_save_upsert;
          now apply (upsert_entries_other (entry_of s)) |].
  split; [intros i old Hi Hold; rewrite apply_save_upsert;
          now apply (upsert_replaces (entry_of s) store i old) |].
  split; [intros Hin; rewrite apply_save_upsert;
          now apply (upsert_fresh (entry_of s)) |].
  intros Hday. apply strftime_Ymd_same_day in Hday.
  assert (Hdate : UsageEntry.date (entry_of s') = today) by exact Hday.
  rewrite (apply_save_upsert (apply_save store s) s'). split.
  - rewrite <- Hdate. now apply upsert_entries_today.
  - rewrite <- !(length_fmap UsageEntry.date). f_equal.
    apply upsert_dates. rewrite Hdate.
    assert (Hin : entry_of s ∈ entries_on today (apply_save store s))
      by (rewrite Hone; apply list_elem_of_singleton; reflexivity).
    apply list_elem_of_filter in Hin as [_ Hin].
    apply list_elem_of_fmap. exists (entry_of s). split; [reflexivity | exact Hin].
Qed.

(** ** The save button *)

(** C4: a save with an empty name is rejected with the error notice, and the
    session state that comes back is the one that went in: neither the
    history store nor the stored profile changes. *)
Theorem save_rejects_empty_name (now1 now2 : Clock.datetime) (w : Widgets)
    (st : SessionState) :
  w_name w = EmptyString ->
  save_button now1 now2 w st = (st, st_error "❌ Please enter your name first!")
  /\ usage_data (save_button now1 now2 w st).1 = usage_data st
  /\ user_profile (save_button now1 now2 w st).1 = user_profile st.
Proof.
  intros Hname. unfold save_button. rewrite Hname. repeat split.
Qed.

Lemma save_rejects_empty_name_witness :
  w_name nameless_widgets = EmptyString
  /\ save_button noon_2024_01_10 noon_2024_01_10 nameless_widgets sample_state
      = (sample_state, st_error "❌ Please enter your name first!").
Proof.
  split; [reflexivity |].
  exact (proj1 (save_rejects_empty_name noon_2024_01_10 noon_2024_01_10
                  nameless_widgets sample_state eq_refl)).
Defined.

(** With a name the save goes through: the profile is overwritten and the
    entry is upserted. *)
Lemma save_accepts_name (now1 now2 : Clock.datetime) (w : Widgets) (st : SessionState) :
  w_name w <> EmptyString ->
  exists user_data,
    save_button now1 now2 w st
    = (mkState (save_daily_usage now1 now2
                  (total_energy_of (housing_label (w_facility w)) (w_appliances w))
                  user_data (usage_data st))
               (Some user_data),
       st_success "✅ Usage data saved successfully!")
    /\ UserData.name user_data = w_name w.
Proof.
  intros Hname. unfold save_button. destruct (w_name w) as [| c n] eqn:E; [contradiction |].
  eexists. split; reflexivity.
Qed.

(** The store of a session is the store of the saves its clicks made. *)
Lemma click_store (st : SessionState) (c : Click) :
  usage_data (click st c)
  = match save_of_click c with
    | Some s => apply_save (usage_data st) s
    | None => usage_data st
    end.
Proof.
  unfold click, save_button, save_of_click.
  destruct (w_name (click_widgets c)); reflexivity.
Qed.

Lemma run_clicks_store (clicks : list Click) :
  usage_data (run_clicks clicks) = run_saves (omap save_of_click clicks).
Proof.
  induction clicks as [| c clicks IH] using rev_ind; [reflexivity |].
  unfold run_clicks in *. rewrite foldl_app. cbn [foldl].
  rewrite click_store, IH, omap_app. cbn [omap list_omap].
  destruct (save_of_click c) as [s |].
  - now rewrite run_saves_snoc.
  - now rewrite app_nil_r.
Qed.

Lemma session_store_NoDup (clicks : list Click) :
  NoDup (UsageEntry.date <$> usage_data (run_clicks clicks)).
Proof. rewrite run_clicks_store. apply run_saves_NoDup. Qed.

(** ** Weekly slice *)

#[global] Instance date_le_total : Total date_le.
Proof. intros r1 r2. unfold date_le. lia. Qed.

#[global] Instance date_le_trans : Transitive date_le.
Proof. intros r1 r2 r3. unfold date_le. lia. Qed.

Lemma to_datetime_midnight (s : string) (t : Clock.datetime) :
  Clock.to_datetime s = Some t -> t = Clock.day_of t * Clock.us_per_day.
Proof.
  unfold Clock.to_datetime. destruct (Clock.parse_Ymd s) as [[[y m] d] |]; [| discriminate].
  cbn. destruct (_ && _); [| discriminate]. intros [= <-].
  unfold Clock.day_of. now rewrite Z.div_mul.
Qed.

Lemma to_row_midnight (entry : UsageEntry.t) (r : Row.t) :
  to_row entry = Some r -> Row.date r = Clock.day_of (Row.date r) * Clock.us_per_day.
Proof.
  unfold to_row. destruct (Clock.to_datetime _) as [t |] eqn:E; [| discriminate].
  cbn. intros [= <-]. cbn. now apply (to_datetime_midnight _ _ E).
Qed.

Lemma data_frame_midnight (usage_data : list UsageEntry.t) (df : list Row.t) (r : Row.t) :
  mapM to_row usage_data = Some df -> r ∈ df ->
  Row.date r = Clock.day_of (Row.date r) * Clock.us_per_day.
Proof.
  intros Hdf Hr. apply mapM_Some in Hdf.
  assert (H : Forall (fun r => Row.date r = Clock.day_of (Row.date r) * Clock.us_per_day) df).
  { eapply Forall2_Forall_r; [exact Hdf |].
    apply Forall_forall. intros entry _ r'. apply to_row_midnight. }
  rewrite Forall_forall in H. now apply H.
Qed.

(** Midnight of a day is at or after [now] minus seven days exactly when the
    day is later than seven days before today, or is that very day and [now]
    is midnight itself. *)
Lemma window_days (now k : Z) :
  now - Clock.timedelta_days 7 <= k * Clock.us_per_day
  <-> Clock.day_of now - 7 < k \/ (k = Clock.day_of now - 7 /\ Clock.time_of_day now = 0).
Proof.
  unfold Clock.timedelta_days, Clock.day_of, Clock.time_of_day.
  assert (HD : 0 < Clock.us_per_day) by reflexivity.
  pose proof (Z.div_mod now Clock.us_per_day ltac:(lia)) as Hdm.
  pose proof (Z.mod_pos_bound now Clock.us_per_day HD) as Hb.
  set (q := now / Clock.us_per_day) in *. set (m := now mod Clock.us_per_day) in *.
  set (D := Clock.us_per_day) in *. nia.
Qed.

Lemma get_weekly_data_nonempty (now : Clock.datetime) (usage_data : list UsageEntry.t)
    (df : list Row.t) :
  mapM to_row usage_data = Some df ->
  get_weekly_data now usage_data
  = Some (sort_values_date
            (filter (fun r => now - Clock.timedelta_days 7 <= Row.date r) df)).
Proof.
  intros Hdf. destruct usage_data as [| entry usage_data].
  - cbn in Hdf. injection Hdf as <-. reflexivity.
  - unfold get_weekly_data. rewrite Hdf. reflexivity.
Qed.

(** C3, as stated, fails twice at noon of 2024-01-10: the entry of 2024-01-03,
    seven days before today, lies in the stated window and is left out, and
    the entry of 2024-01-20, after today, lies outside it and is returned. *)
Lemma weekly_slice_window_counterexample :
  to_row (entry_on "2024-01-03") = Some (row_at 2024 1 3 "2024-01-03")
  /\ to_row (entry_on "2024-01-20") = Some (row_at 2024 1 20 "2024-01-20")
  /\ in_spec_window noon_2024_01_10 (row_at 2024 1 3 "2024-01-03") = true
  /\ in_spec_window noon_2024_01_10 (row_at 2024 1 20 "2024-01-20") = false
  /\ get_weekly_data noon_2024_01_10 [entry_on "2024-01-03"; entry_on "2024-01-20"]
      = Some [row_at 2024 1 20 "2024-01-20"].
Proof. repeat split; vm_compute; reflexivity. Qed.

(** C3, amended: when every date of the store is read, the weekly slice is
    made of exactly the rows whose date, taken at midnight, is not earlier
    than the instant seven days before [now], sorted ascending by date.  A
    row is returned exactly when its day is later than seven days before
    today, or is that very day and [now] is midnight itself; there is no
    upper bound. *)
Theorem weekly_slice_window (now : Clock.datetime) (usage_data : list UsageEntry.t)
    (df : list Row.t) :
  mapM to_row usage_data = Some df ->
  exists weekly_data,
    get_weekly_data now usage_data = Some weekly_data
    /\ weekly_data ≡ₚ filter (fun r => now - Clock.timedelta_days 7 <= Row.date r) df
    /\ Sorted date_le weekly_data
    /\ (forall r, r ∈ weekly_data <->
          r ∈ df /\ (Clock.day_of now - 7 < Clock.day_of (Row.date r)
                     \/ (Clock.day_of (Row.date r) = Clock.day_of now - 7
                         /\ Clock.time_of_day now = 0))).
Proof.
  intros Hdf. eexists. split; [exact (get_weekly_data_nonempty now usage_data df Hdf) |].
  unfold sort_values_date. split; [apply merge_sort_Permutation |].
  split; [apply (Sorted_merge_sort date_le) |].
  intros r. rewrite merge_sort_Permutation, list_elem_of_filter. split.
  - intros [Hr Hin]. split; [exact Hin |].
    rewrite (data_frame_midnight _ _ _ Hdf Hin) in Hr. now apply window_days in Hr.
  - intros [Hin Hr]. split; [| exact Hin].
    rewrite (data_frame_midnight _ _ _ Hdf Hin). now apply window_days.
Qed.

Lemma weekly_slice_window_witness :
  mapM to_row [entry_on "2024-01-09"; entry_on "2024-01-04"]
  = Some [row_at 2024 1 9 "2024-01-09"; row_at 2024 1 4 "2024-01-04"]
  /\ exists weekly_data,
       get_weekly_data noon_2024_01_10 [entry_on "2024-01-09"; entry_on "2024-01-04"]
       = Some weekly_data
       /\ Sorted date_le weekly_data.
Proof.
  assert (H : mapM to_row [entry_on "2024-01-09"; entry_on "2024-01-04"]
              = Some [row_at 2024 1 9 "2024-01-09"; row_at 2024 1 4 "2024-01-04"])
    by (vm_compute; reflexivity).
  split; [exact H |].
  destruct (weekly_slice_window noon_2024_01_10 _ _ H) as (weekly_data & H1 & _ & H2 & _).
  exists weekly_data. split; [exact H1 | exact H2].
Defined.

Lemma filter_all_before (start : Z) (df : list Row.t) :
  Forall (fun r => Row.date r < start) df ->
  filter (fun r => start <= Row.date r) df = [].
Proof.
  induction 1 as [| r df Hr _ IH]; [reflexivity |].
  rewrite filter_cons_False by lia. exact IH.
Qed.

(** A store built by saves on readable days is read without error. *)
Lemma run_saves_data_frame (saves : list Save) :
  Forall (fun s => Clock.readable (save_now1 s)) saves ->
  exists df, mapM to_row (run_saves saves) = Some df.
Proof.
  intros Hsaves. apply mapM_is_Some.
  eapply Forall_impl; [exact (run_saves_dated_by_clock saves Hsaves) |].
  intros entry (t & Ht & Hdate). unfold to_row. cbn.
  rewrite Hdate, (to_datetime_strftime t Ht). cbn. eauto.
Qed.

(** ** Exporter *)

Lemma export_data_fmap (usage_data : list UsageEntry.t) :
  export_data usage_data = export_entry <$> usage_data.
Proof.
  unfold export_data.
  assert (H : forall acc, foldl (fun export_data entry => export_data ++ [export_entry entry])
                                acc usage_data
                          = acc ++ (export_entry <$> usage_data)).
  { induction usage_data as [| entry usage_data IH]; intros acc; cbn.
    - now rewrite app_nil_r.
    - rewrite IH, <- app_assoc. reflexivity. }
  apply (H []).
Qed.

Lemma export_entry_keys (entry : UsageEntry.t) : (export_entry entry).*1 = csv_columns.
Proof. reflexivity. Qed.

Lemma export_entry_cells (entry : UsageEntry.t) :
  record_get (export_entry entry) <$> csv_columns = csv_row entry.
Proof. reflexivity. Qed.

(** Records with the same keys add no column. *)
Lemma columns_stable (usage_data : list UsageEntry.t) :
  foldl (fun cols r => foldl add_column cols (r.*1)) csv_columns
        (export_entry <$> usage_data)
  = csv_columns.
Proof.
  induction usage_data as [| entry usage_data IH]; [reflexivity |].
  cbn [fmap list_fmap foldl]. rewrite export_entry_keys.
  replace (foldl add_column csv_columns csv_columns) with csv_columns
    by (vm_compute; reflexivity).
  exact IH.
Qed.

Lemma data_frame_of_export (entry : UsageEntry.t) (usage_data : list UsageEntry.t) :
  DataFrame_of_records (export_data (entry :: usage_data))
  = mkFrame csv_columns (csv_row <$> entry :: usage_data).
Proof.
  rewrite export_data_fmap. unfold DataFrame_of_records.
  assert (Hcols : foldl (fun cols r => foldl add_column cols (r.*1)) []
                        (export_entry <$> entry :: usage_data) = csv_columns).
  { cbn [fmap list_fmap foldl]. rewrite export_entry_keys.
    replace (foldl add_column [] csv_columns) with csv_columns
      by (vm_compute; reflexivity).
    apply columns_stable. }
  rewrite Hcols. f_equal. rewrite <- list_fmap_compose.
  apply list_fmap_ext. intros i x _. apply export_entry_cells.
Qed.

(** C8: the export of a store that is not empty is a frame whose columns are
    Date, TotalEnergyKWh, Cost, Name, City, HousingType, AC, Fridge,
    WashingMachine, TV, Microwave, WaterHeater, in this order and under the
    labels of the program, with one row per entry, in the order of the store;
    the cost cell of a row is the product of that entry's total energy and 6,
    computed from the entry at export time, which for a float total is the
    double product with 6.0 and for an int total six times the int; the CSV
    text is the header line followed by one line per row.  On the empty store
    no export is made. *)
Theorem csv_export_rows (render : Cell -> string) (lineterminator : string)
    (entry : UsageEntry.t) (usage_data : list UsageEntry.t)
    (e : Binary64.float) (z : Z) :
  export_df [] = None
  /\ export_csv render lineterminator [] = None
  /\ export_df (entry :: usage_data)
     = Some (mkFrame (Column.label <$> Column.all)
                     ((fun entry => csv_cell entry <$> Column.all) <$> entry :: usage_data))
  /\ length ((fun entry => csv_cell entry <$> Column.all) <$> entry :: usage_data)
     = length (entry :: usage_data)
  /\ export_csv render lineterminator (entry :: usage_data)
     = Some (String.append
               (csv_line render lineterminator (CellStr <$> csv_columns))
               (String.concat ""
                  (csv_line render lineterminator <$> (csv_row <$> entry :: usage_data))))
  /\ csv_cell entry Column.Cost
     = CellNum (UsageEntry.total_energy entry * int 6)%py
  /\ (PyFloat e * int 6)%py = estimateDailyCost (PyFloat e)
  /\ (PyInt z * int 6)%py = PyInt (z * 6).
Proof.
  split; [reflexivity |]. split; [reflexivity |].
  split; [unfold export_df; now rewrite data_frame_of_export |].
  split; [now rewrite length_fmap |].
  split; [unfold export_csv; now rewrite data_frame_of_export |].
  repeat split.
Qed.

(** ** Calendar, the other way round *)

Lemma year_of_era_recover (yoe doy : Z) :
  0 <= yoe < 400 -> 0 <= doy <= 365 ->
  (doy = 365 -> (yoe + 1) mod 4 = 0 /\ ((yoe + 1) mod 100 <> 0 \/ yoe = 399)) ->
  let doe := yoe * 365 + yoe / 4 - yoe / 100 + doy in
  (doe - doe / 1460 + doe / 36524 - doe / 146096) / 365 = yoe /\ 0 <= doe < 146097.
Proof.
  intros Hy Hd Hl doe. subst doe. split; [| div_lia].
  destruct (Z.eq_dec doy 365) as [E | E].
  - destruct (Hl E) as [H4 H100]. div_lia.
  - clear Hl. div_lia.
Qed.

Lemma days_from_civil_inverse (y m d : Z) :
  1 <= m <= 12 -> 1 <= d <= Clock.days_in_month y m ->
  Clock.civil_from_days (Clock.days_from_civil y m d) = (y, m, d).
Proof.
  intros Hm Hd. unfold Clock.days_from_civil.
  remember (if m <=? 2 then y - 1 else y) as y' eqn:Ey'.
  remember (y' / 400) as era eqn:Eera.
  remember (y' - era * 400) as yoe eqn:Eyoe.
  remember (if 2 <? m then m - 3 else m + 9) as mp eqn:Emp.
  remember ((153 * mp + 2) / 5 + d - 1) as doy eqn:Edoy.
  assert (Hyoe : 0 <= yoe < 400) by div_lia.
  assert (Hmp : 0 <= mp <= 11 /\ m = (if mp <? 10 then mp + 3 else mp - 9)
                /\ y = (if m <=? 2 then y' + 1 else y')).
  { subst mp y'. destruct (Z.ltb_spec 2 m), (Z.leb_spec m 2); try lia.
    - rewrite (proj2 (Z.ltb_lt (m - 3) 10)) by lia. lia.
    - rewrite (proj2 (Z.ltb_ge (m + 9) 10)) by lia. lia. }
  destruct Hmp as (Hmp & Em & Ey).
  assert (Hdoy : 0 <= doy <= 365 /\ (5 * doy + 2) / 153 = mp
                 /\ doy - (153 * mp + 2) / 5 + 1 = d
                 /\ (doy = 365 -> (yoe + 1) mod 4 = 0
                                  /\ ((yoe + 1) mod 100 <> 0 \/ yoe = 399))).
  { unfold Clock.days_in_month in Hd.
    assert (Hcases : m = 1 \/ m = 2 \/ m = 3 \/ m = 4 \/ m = 5 \/ m = 6 \/ m = 7
                     \/ m = 8 \/ m = 9 \/ m = 10 \/ m = 11 \/ m = 12) by lia.
    destruct Hcases as [E|[E|[E|[E|[E|[E|[E|[E|[E|[E|[E|E]]]]]]]]]]];
      rewrite E in Emp, Hd, Ey'; vm_compute in Emp;
      cbn -[Z.div Z.modulo Z.mul Z.add Z.sub Clock.is_leap] in Hd, Ey'.
    all: try (repeat split; div_lia).
    destruct (Clock.is_leap y) eqn:L.
    - apply is_leap_spec in L. repeat split; div_lia.
    - repeat split; div_lia. }
  destruct Hdoy as (Hdoy & Emp' & Ed' & Hleap).
  destruct (year_of_era_recover yoe doy Hyoe Hdoy Hleap) as [Hrec Hdoe].
  cbv zeta in Hrec, Hdoe.
  remember (yoe * 365 + yoe / 4 - yoe / 100 + doy) as doe eqn:Edoe.
  unfold Clock.civil_from_days.
  replace (era * 146097 + doe - 719468 + 719468) with (era * 146097 + doe) by lia.
  replace ((era * 146097 + doe) / 146097) with era by div_lia.
  replace (era * 146097 + doe - era * 146097) with doe by lia.
  rewrite Hrec.
  replace (doe - (365 * yoe + yoe / 4 - yoe / 100)) with doy by lia.
  rewrite Emp', Ed', <- Em.
  replace (yoe + era * 400) with y' by lia. now rewrite <- Ey.
Qed.

Lemma digit_of_digit_val (c : ascii) (v : Z) :
  Clock.digit_val c = Some v -> 0 <= v <= 9 /\ Clock.digit v = c.
Proof.
  unfold Clock.digit_val, Clock.digit. intros H.
  destruct (N.leb_spec 48 (N_of_ascii c)), (N.leb_spec (N_of_ascii c) 57);
    cbn in H; try discriminate.
  injection H as <-. split; [lia |].
  rewrite Z.mod_small by lia.
  replace (48 + Z.to_N (Z.of_N (N_of_ascii c) - 48))%N with (N_of_ascii c) by lia.
  apply ascii_N_embedding.
Qed.

Lemma digit_congr (x y : Z) : x mod 10 = y mod 10 -> Clock.digit x = Clock.digit y.
Proof. unfold Clock.digit. now intros ->. Qed.

Lemma hyphen_of_is_hyphen (c : ascii) : Clock.is_hyphen c = true -> c = "-"%char.
Proof.
  unfold Clock.is_hyphen. intros H. apply N.eqb_eq in H.
  rewrite <- (ascii_N_embedding c), H. reflexivity.
Qed.

(** A text that names a date is the text [strftime_Ymd] writes for it. *)
Lemma parse_Ymd_text (s : string) (y m d : Z) :
  Clock.parse_Ymd s = Some (y, m, d) ->
  s = String.append (Clock.pad4 y)
        (String.append "-" (String.append (Clock.pad2 m)
           (String.append "-" (Clock.pad2 d))))
  /\ 0 <= y <= 9999 /\ 1 <= m <= 12 /\ 1 <= d <= Clock.days_in_month y m.
Proof.
  unfold Clock.parse_Ymd. intros H.
  rewrite <- (string_of_list_ascii_of_string s).
  destruct (list_ascii_of_string s)
    as [| y1 [| y2 [| y3 [| y4 [| h1 [| m1 [| m2 [| h2 [| d1 [| d2 [| x l]]]]]]]]]]];
    try discriminate H.
  destruct (Clock.digit_val y1) as [a |] eqn:Ea; [| discriminate H].
  destruct (Clock.digit_val y2) as [b |] eqn:Eb; [| discriminate H].
  destruct (Clock.digit_val y3) as [c |] eqn:Ec; [| discriminate H].
  destruct (Clock.digit_val y4) as [e |] eqn:Ee; [| discriminate H].
  destruct (Clock.digit_val m1) as [f |] eqn:Ef; [| discriminate H].
  destruct (Clock.digit_val m2) as [g |] eqn:Eg; [| discriminate H].
  destruct (Clock.digit_val d1) as [i |] eqn:Ei; [| discriminate H].
  destruct (Clock.digit_val d2) as [j |] eqn:Ej; [| discriminate H].
  cbn [mbind option_bind] in H.
  destruct (_ && _) eqn:Hok in H; [| discriminate H].
  injection H as <- <- <-.
  repeat (apply andb_prop in Hok as [Hok ?]).
  apply digit_of_digit_val in Ea as [? <-], Eb as [? <-], Ec as [? <-], Ee as [? <-],
    Ef as [? <-], Eg as [? <-], Ei as [? <-], Ej as [? <-].
  repeat match goal with
         | H : Clock.is_hyphen _ = true |- _ => apply hyphen_of_is_hyphen in H; subst
         | H : (_ <=? _) = true |- _ => apply Z.leb_le in H
         end.
  split; [| lia].
  unfold Clock.pad4, Clock.pad2. cbv [String.append string_of_list_ascii].
  rewrite (digit_congr ((1000 * a + 100 * b + 10 * c + e) / 1000) a),
          (digit_congr ((1000 * a + 100 * b + 10 * c + e) / 100) b),
          (digit_congr ((1000 * a + 100 * b + 10 * c + e) / 10) c),
          (digit_congr (1000 * a + 100 * b + 10 * c + e) e),
          (digit_congr ((10 * f + g) / 10) f), (digit_congr (10 * f + g) g),
          (digit_congr ((10 * i + j) / 10) i), (digit_congr (10 * i + j) j)
    by div_lia.
  reflexivity.
Qed.

(** The texts [Clock.to_datetime] reads are those [strftime_Ymd] writes: what
    it reads, [strftime_Ymd] writes back.  (A fact of this reader, which
    keeps to the stored spelling; pandas reads other spellings too.) *)
Lemma strftime_to_datetime (s : string) (t : Clock.datetime) :
  Clock.to_datetime s = Some t -> Clock.strftime_Ymd t = s /\ Clock.readable t.
Proof.
  unfold Clock.to_datetime. intros H.
  destruct (Clock.parse_Ymd s) as [[[y m] d] |] eqn:Hp; [| discriminate H].
  cbn [mbind option_bind] in H.
  destruct (_ && _) eqn:Hy in H; [| discriminate H]. injection H as <-.
  apply andb_prop in Hy as [Hy1 Hy2]. apply Z.leb_le in Hy1, Hy2.
  apply parse_Ymd_text in Hp as (-> & _ & Hm & Hd).
  assert (Hday : Clock.day_of (Clock.days_from_civil y m d * Clock.us_per_day)
                 = Clock.days_from_civil y m d)
    by (unfold Clock.day_of; now rewrite Z.div_mul).
  split.
  - unfold Clock.strftime_Ymd. rewrite Hday, (days_from_civil_inverse y m d Hm Hd).
    reflexivity.
  - unfold Clock.readable. rewrite Hday.
    pose proof (days_in_month_bound y m) as Hdim.
    change (Clock.days_from_civil 1678 1 1) with (-106650).
    change (Clock.days_from_civil 2261 12 31) with 106650.
    unfold Clock.days_from_civil.
    destruct (Z.leb_spec m 2), (Z.ltb_spec 2 m); try lia; div_lia.
Qed.

(** ** Estimator: range and growth *)

Lemma base_energy_cases (facility : string) :
  calculate_base_energy facility = int 0
  \/ calculate_base_energy facility = calculate_base_energy "1BHK"
  \/ calculate_base_energy facility = calculate_base_energy "2BHK"
  \/ calculate_base_energy facility = calculate_base_energy "3BHK".
Proof.
  unfold calculate_base_energy.
  destruct (decide (lower facility = "1bhk")) as [E | H1];
    [right; left; now rewrite E |].
  destruct (decide (lower facility = "2bhk")) as [E | H2];
    [right; right; left; now rewrite E |].
  destruct (decide (lower facility = "3bhk")) as [E | H3];
    [right; right; right; now rewrite E |].
  left. now rewrite base_consumption_lookup_ne.
Qed.

(** X1: for every facility text and every choice of flags the estimate is a
    finite number between 0 and 28, the greatest being that of 3BHK with all
    six appliances; and switching on an appliance that is off raises it, by
    the tabulated contribution of that appliance up to 10^-14. *)
Theorem estimate_range_and_growth (facility : string) (a : ApplianceFlags) (x : Appliance) :
  is_finite (total_energy_of facility a) = true
  /\ (0 <= py_value (total_energy_of facility a) <= 28)%Q
  /\ (py_value (total_energy_of facility a)
      <= py_value (total_energy_of "3BHK" all_on))%Q
  /\ (is_on x a = false ->
      (py_value (total_energy_of facility a)
       < py_value (total_energy_of facility (switch_on x a)))%Q
      /\ (Qabs (py_value (total_energy_of facility (switch_on x a))
                - py_value (total_energy_of facility a) - spec_contribution x)
          <= 1 # 10 ^ 14)%Q).
Proof.
  unfold total_energy_of.
  destruct (base_energy_cases facility) as [-> | [-> | [-> | ->]]];
    destruct a as [[] [] [] [] [] []];
    (split; [vm_compute; reflexivity |]);
    (split; [split; apply Qle_bool_iff; vm_compute; reflexivity |]);
    (split; [apply Qle_bool_iff; vm_compute; reflexivity |]);
    intros Hoff; destruct x; try discriminate Hoff;
    (split; [vm_compute; reflexivity | apply Qle_bool_iff; vm_compute; reflexivity]).
Qed.

(** ** Display *)

(** X2: the five figures of today's calculation are the exact decimals of the
    tables, to two places: the rounding of the double arithmetic never shows
    on the screen. *)
Theorem displayed_figures_exact (h : HousingType) (a : ApplianceFlags) :
  todays_calculation (housing_label h) a
  = mkFigures
      (String.append (decimal_2 (spec_base h)) " kWh")
      (String.append (decimal_2 (spec_sum (selected a))) " kWh")
      (String.append (decimal_2 (spec_energy h (selected a))) " kWh")
      (String.append "₹" (decimal_2 (Qmult (spec_energy h (selected a)) 6)))
      (String.append "💰 Estimated Monthly Cost: ₹"
         (decimal_2 (Qmult (spec_energy h (selected a)) 180))).
Proof. destruct h, a as [[] [] [] [] [] []]; vm_compute; reflexivity. Qed.

(** ** Sidebar and session *)

Lemma sidebar_defaults_of_widgets (w : Widgets) :
  1 <= w_age w <= 120 ->
  sidebar_defaults
    (Some (UserData.mk (w_name w) (w_age w) (w_city w) (w_area w)
             (dwelling_label (w_flat_tenement w)) (housing_label (w_facility w))
             (ac (w_appliances w)) (fridge (w_appliances w))
             (washing_machine (w_appliances w)) (tv (w_appliances w))
             (microwave (w_appliances w)) (water_heater (w_appliances w))))
  = Some w.
Proof.
  intros Hage. destruct w as [n ag c ar ft fa [a1 a2 a3 a4 a5 a6]]. cbn in Hage.
  unfold sidebar_defaults, profile_get. cbn [UserData.name UserData.age UserData.city
    UserData.area UserData.flat_tenement UserData.facility UserData.ac UserData.fridge
    UserData.washing_machine UserData.tv UserData.microwave UserData.water_heater
    w_name w_age w_city w_area w_flat_tenement w_facility w_appliances
    ac fridge washing_machine tv microwave water_heater].
  rewrite (proj2 (Z.leb_le 1 ag)), (proj2 (Z.leb_le ag 120)) by lia.
  destruct ft, fa; reflexivity.
Qed.

(** X3: the sidebar round trip.  On a fresh session the widgets start from
    the empty name, age 25, Flat, 1BHK and no appliance; after an accepted
    save they start from exactly the values that were saved, and reading the
    stored profile raises nothing. *)
Theorem sidebar_round_trip (now1 now2 : Clock.datetime) (w : Widgets) (st : SessionState) :
  w_name w <> EmptyString -> 1 <= w_age w <= 120 ->
  sidebar_defaults (user_profile initial_state)
  = Some (mkWidgets "" 25 "" "" Flat OneBHK no_appliances)
  /\ sidebar_defaults (user_profile (save_button now1 now2 w st).1) = Some w.
Proof.
  intros Hname Hage. split; [reflexivity |].
  unfold save_button. destruct (w_name w) as [| c n] eqn:E; [contradiction |].
  cbn [fst user_profile]. rewrite <- E. now apply sidebar_defaults_of_widgets.
Qed.

Lemma sidebar_round_trip_witness :
  w_name (mkWidgets "Asha" 30 "Pune" "Baner" Tenement ThreeBHK ac_and_fridge) <> EmptyString
  /\ 1 <= w_age (mkWidgets "Asha" 30 "Pune" "Baner" Tenement ThreeBHK ac_and_fridge) <= 120
  /\ sidebar_defaults
       (user_profile
          (save_button noon_2024_01_10 noon_2024_01_10
             (mkWidgets "Asha" 30 "Pune" "Baner" Tenement ThreeBHK ac_and_fridge)
             sample_state).1)
     = Some (mkWidgets "Asha" 30 "Pune" "Baner" Tenement ThreeBHK ac_and_fridge).
Proof.
  assert (H1 : w_name (mkWidgets "Asha" 30 "Pune" "Baner" Tenement ThreeBHK ac_and_fridge)
               <> EmptyString) by discriminate.
  assert (H2 : 1 <= w_age (mkWidgets "Asha" 30 "Pune" "Baner" Tenement ThreeBHK ac_and_fridge)
               <= 120) by (cbn; lia).
  exact (conj H1 (conj H2 (proj2 (sidebar_round_trip noon_2024_01_10 noon_2024_01_10
                                    _ sample_state H1 H2)))).
Defined.

Lemma click_profile (st : SessionState) (c : Click) :
  user_profile (click st c)
  = match save_of_click c with
    | Some s => Some (save_user_data s)
    | None => user_profile st
    end.
Proof.
  unfold click, save_button, save_of_click.
  destruct (w_name (click_widgets c)); reflexivity.
Qed.

(** X5: the stored profile of a session is the profile of the last click that
    was accepted, and the empty profile when none was: every accepted save
    overwrites it as a whole and a rejected one leaves it. *)
Theorem session_profile_is_last_accepted (clicks : list Click) :
  user_profile (run_clicks clicks)
  = save_user_data <$> last (omap save_of_click clicks).
Proof.
  induction clicks as [| c clicks IH] using rev_ind; [reflexivity |].
  unfold run_clicks in *. rewrite foldl_app. cbn [foldl].
  rewrite click_profile, IH, omap_app. cbn [omap list_omap].
  destruct (save_of_click c) as [s |].
  - now rewrite last_snoc.
  - now rewrite app_nil_r.
Qed.

Lemma run_saves_elem_of (saves : list Save) (entry : UsageEntry.t) :
  entry ∈ run_saves saves -> exists s, s ∈ saves /\ entry = entry_of s.
Proof.
  induction saves as [| s saves IH] using rev_ind; intros H.
  - inversion H.
  - rewrite run_saves_snoc, apply_save_upsert in H.
    apply upsert_elem_of in H as [-> | H].
    + exists s. split; [apply elem_of_app; right; apply list_elem_of_here | reflexivity].
    + destruct (IH H) as (s0 & Hs0 & ->). exists s0.
      split; [apply elem_of_app; now left | reflexivity].
Qed.

(** X6: every entry of a session store is the record of one click: its name is
    not empty, its housing type is one of the three options, its date is the
    day of that click, and its total energy is the estimate of its own
    snapshot of the flags. *)
Theorem session_entries_consistent (clicks : list Click) (entry : UsageEntry.t) :
  entry ∈ usage_data (run_clicks clicks) ->
  exists c,
    c ∈ clicks
    /\ UserData.name (UsageEntry.user_data entry) = w_name (click_widgets c)
    /\ UserData.name (UsageEntry.user_data entry) <> EmptyString
    /\ UserData.facility (UsageEntry.user_data entry)
       = housing_label (w_facility (click_widgets c))
    /\ UsageEntry.date entry = Clock.strftime_Ymd (click_now1 c)
    /\ UsageEntry.timestamp entry = Clock.isoformat (click_now2 c)
    /\ UsageEntry.total_energy entry
       = total_energy_of (UserData.facility (UsageEntry.user_data entry))
                         (flags_of (UsageEntry.user_data entry)).
Proof.
  rewrite run_clicks_store. intros H.
  apply run_saves_elem_of in H as (s & Hs & ->).
  apply list_elem_of_omap in Hs as (c & Hc & Hs). exists c. split; [exact Hc |].
  unfold save_of_click in Hs. destruct (w_name (click_widgets c)) as [| ch n] eqn:E;
    [discriminate Hs |].
  injection Hs as <-. unfold entry_of, flags_of.
  cbn [UsageEntry.user_data UsageEntry.date UsageEntry.timestamp UsageEntry.total_energy
       UserData.name UserData.facility UserData.ac UserData.fridge
       UserData.washing_machine UserData.tv UserData.microwave UserData.water_heater
       save_now1 save_now2 save_total_energy save_user_data].
  destruct (w_appliances (click_widgets c)). repeat split. discriminate.
Qed.

(** ** History store, as a function of the saves *)

(** X7: the store after a sequence of saves holds, for each date, the entry of
    the last save made on that date and nothing else, and its dates stand in
    the order in which each was first saved. *)
Theorem store_holds_last_save_of_each_date (saves : list Save) (d : string) :
  entries_on d (run_saves saves)
  = entry_of <$> option_list (last (filter (fun s => save_date s = d) saves))
  /\ UsageEntry.date <$> run_saves saves
     = reverse (remove_dups (reverse (save_date <$> saves))).
Proof.
  induction saves as [| s saves [IH1 IH2]] using rev_ind; [split; reflexivity |].
  pose proof (run_saves_NoDup saves) as Hnd.
  rewrite run_saves_snoc, apply_save_upsert. split.
  - rewrite filter_app.
    destruct (decide (save_date s = d)) as [E | E].
    + rewrite (filter_cons_True _ s) by exact E. cbn [filter list_filter].
      rewrite last_snoc. cbn. rewrite <- E.
      now apply (upsert_entries_today (entry_of s)).
    + rewrite (filter_cons_False _ s) by exact E. cbn [filter list_filter].
      rewrite app_nil_r, <- IH1.
      apply (upsert_entries_other (entry_of s)). intros ->. now apply E.
  - rewrite fmap_snoc, reverse_snoc. cbn [remove_dups].
    destruct (decide_rel _ _ _) as [Hin | Hin].
    + rewrite <- IH2. apply upsert_dates.
      rewrite IH2, elem_of_reverse, elem_of_remove_dups. exact Hin.
    + rewrite reverse_cons, <- IH2. rewrite upsert_fresh, fmap_app; [reflexivity |].
      rewrite IH2, elem_of_reverse, elem_of_remove_dups. exact Hin.
Qed.

(** ** Date texts *)

(** X8: the round trip of a stored date.  The text [strftime] writes for an
    instant [t] of the years 1678 to 2261 is read back as midnight of the
    day of [t], and [strftime] writes the same text again for what was read.
    Two such instants are given the same text exactly when they are on the
    same day, and exactly then their texts are read as the same instant. *)
Theorem date_text_round_trip (t t' : Clock.datetime) :
  Clock.readable t ->
  exists u,
    Clock.to_datetime (Clock.strftime_Ymd t) = Some u
    /\ u = Clock.day_of t * Clock.us_per_day
    /\ Clock.time_of_day u = 0
    /\ Clock.strftime_Ymd u = Clock.strftime_Ymd t
    /\ (Clock.readable t' ->
        (Clock.strftime_Ymd t' = Clock.strftime_Ymd t <-> Clock.day_of t' = Clock.day_of t)
        /\ (Clock.to_datetime (Clock.strftime_Ymd t') = Some u
            <-> Clock.day_of t' = Clock.day_of t)).
Proof.
  intros Ht. exists (Clock.day_of t * Clock.us_per_day).
  assert (HD : Clock.us_per_day <> 0) by discriminate.
  split; [now apply to_datetime_strftime |]. split; [reflexivity |].
  split; [unfold Clock.time_of_day; now rewrite Z.mod_mul |].
  split.
  { apply strftime_Ymd_same_day. unfold Clock.day_of at 1. now rewrite Z.div_mul. }
  intros Ht'.
  assert (Hread : Clock.to_datetime (Clock.strftime_Ymd t')
                  = Some (Clock.day_of t * Clock.us_per_day)
                  <-> Clock.day_of t' = Clock.day_of t).
  { rewrite (to_datetime_strftime t' Ht'). split.
    - intros [= H]. now apply Z.mul_cancel_r in H.
    - now intros ->. }
  split; [| exact Hread]. split.
  - intros H. apply Hread. rewrite H. now apply to_datetime_strftime.
  - apply strftime_Ymd_same_day.
Qed.

Lemma date_text_round_trip_witness :
  Clock.readable noon_2024_01_10
  /\ Clock.readable (Clock.mk_datetime 2024 1 10 23 59 59 0)
  /\ Clock.to_datetime (Clock.strftime_Ymd noon_2024_01_10)
     = Some (Clock.mk_datetime 2024 1 10 0 0 0 0)
  /\ Clock.strftime_Ymd (Clock.mk_datetime 2024 1 10 0 0 0 0)
     = Clock.strftime_Ymd noon_2024_01_10
  /\ Clock.strftime_Ymd (Clock.mk_datetime 2024 1 10 23 59 59 0)
     = Clock.strftime_Ymd noon_2024_01_10.
Proof.
  assert (H1 : Clock.readable noon_2024_01_10) by (vm_compute; split; discriminate).
  assert (H2 : Clock.readable (Clock.mk_datetime 2024 1 10 23 59 59 0))
    by (vm_compute; split; discriminate).
  assert (H3 : Clock.day_of (Clock.mk_datetime 2024 1 10 23 59 59 0)
               = Clock.day_of noon_2024_01_10) by reflexivity.
  destruct (date_text_round_trip noon_2024_01_10 (Clock.mk_datetime 2024 1 10 23 59 59 0) H1)
    as (u & Hu & -> & _ & Hback & Hsame).
  exact (conj H1 (conj H2 (conj Hu (conj Hback (proj2 (proj1 (Hsame H2)) H3))))).
Defined.

(** ** Weekly slice of a store with one entry per date *)

Lemma to_row_date (entry : UsageEntry.t) (r : Row.t) :
  to_row entry = Some r ->
  Clock.to_datetime (UsageEntry.date entry) = Some (Row.date r)
  /\ Row.total_energy r = UsageEntry.total_energy entry
  /\ Row.user_data r = UsageEntry.user_data entry.
Proof.
  unfold to_row. destruct (Clock.to_datetime _) as [t |]; [| discriminate].
  cbn. intros [= <-]. repeat split.
Qed.

Lemma data_frame_elem_of (usage_data : list UsageEntry.t) (df : list Row.t) (r : Row.t) :
  mapM to_row usage_data = Some df -> r ∈ df ->
  exists entry, entry ∈ usage_data /\ to_row entry = Some r.
Proof.
  intros Hdf. apply mapM_Some in Hdf.
  induction Hdf as [| entry r' l k Hr _ IH]; intros Hin; [inversion Hin |].
  apply elem_of_cons in Hin as [-> | Hin].
  - exists entry. split; [apply list_elem_of_here | exact Hr].
  - destruct (IH Hin) as (e & He & Hr'). exists e.
    split; [now apply list_elem_of_further | exact Hr'].
Qed.

Lemma data_frame_elem_of_2 (usage_data : list UsageEntry.t) (df : list Row.t)
    (entry : UsageEntry.t) :
  mapM to_row usage_data = Some df -> entry ∈ usage_data ->
  exists r, r ∈ df /\ to_row entry = Some r.
Proof.
  intros Hdf. apply mapM_Some in Hdf.
  induction Hdf as [| entry' r' l k Hr _ IH]; intros Hin; [inversion Hin |].
  apply elem_of_cons in Hin as [-> | Hin].
  - exists r'. split; [apply list_elem_of_here | exact Hr].
  - destruct (IH Hin) as (r & Hr' & He). exists r.
    split; [now apply list_elem_of_further | exact He].
Qed.

(** Rows of entries with different date texts have different dates. *)
Lemma data_frame_NoDup (usage_data : list UsageEntry.t) (df : list Row.t) :
  mapM to_row usage_data = Some df ->
  NoDup (UsageEntry.date <$> usage_data) -> NoDup (Row.date <$> df).
Proof.
  intros Hdf. apply mapM_Some in Hdf.
  induction Hdf as [| entry r l k Hr Hlk IH]; intros Hnd; [constructor |].
  cbn in Hnd |- *. apply NoDup_cons in Hnd as [Hentry Hnd].
  apply NoDup_cons. split; [| now apply IH].
  intros Hin. apply Hentry. apply list_elem_of_fmap in Hin as (r' & Hdate & Hr').
  destruct (data_frame_elem_of l k r' (proj2 (mapM_Some _ _ _) Hlk) Hr')
    as (entry' & Hentry' & Hrow').
  apply list_elem_of_fmap. exists entry'. split; [| exact Hentry'].
  apply to_row_date in Hr as [Hr _], Hrow' as [Hrow' _]. rewrite <- Hdate in Hrow'.
  destruct (strftime_to_datetime _ _ Hr) as [<- _].
  destruct (strftime_to_datetime _ _ Hrow') as [<- _]. reflexivity.
Qed.

Lemma NoDup_fmap_filter {A B : Type} (f : A -> B) (P : A -> Prop)
    `{!forall x, Decision (P x)} (l : list A) :
  NoDup (f <$> l) -> NoDup (f <$> filter P l).
Proof.
  induction l as [| x l IH]; intros Hnd; [constructor |].
  cbn in Hnd. apply NoDup_cons in Hnd as [Hx Hnd].
  rewrite filter_cons. destruct (decide (P x)); [| now apply IH].
  cbn. apply NoDup_cons. split; [| now apply IH].
  intros Hin. apply Hx. apply list_elem_of_fmap in Hin as (y & Hy & Hin).
  apply list_elem_of_filter in Hin as [_ Hin].
  apply list_elem_of_fmap. eauto.
Qed.

Lemma sorted_dates_strict (l : list Row.t) :
  Sorted date_le l -> NoDup (Row.date <$> l) -> StronglySorted date_lt l.
Proof.
  intros Hs Hnd. apply (Sorted_StronglySorted date_le) in Hs.
  induction Hs as [| r l Hs IH Hr]; [constructor |].
  cbn in Hnd. apply NoDup_cons in Hnd as [Hnew Hnd].
  constructor; [now apply IH |].
  rewrite Forall_forall in Hr |- *. intros r' Hr'.
  specialize (Hr r' Hr'). unfold date_le, date_lt in *.
  assert (Row.date r <> Row.date r'); [| lia].
  intros E. apply Hnew. rewrite E. apply list_elem_of_fmap. eauto.
Qed.

Lemma weekly_slice_NoDup (now : Clock.datetime) (usage_data : list UsageEntry.t)
    (weekly_data : list Row.t) :
  NoDup (UsageEntry.date <$> usage_data) ->
  get_weekly_data now usage_data = Some weekly_data ->
  NoDup (Row.date <$> weekly_data) /\ Sorted date_le weekly_data.
Proof.
  intros Hnd H. destruct (mapM to_row usage_data) as [df |] eqn:Hdf.
  - rewrite (get_weekly_data_nonempty now usage_data df Hdf) in H. injection H as <-.
    unfold sort_values_date. split; [| apply (Sorted_merge_sort date_le)].
    rewrite merge_sort_Permutation. apply NoDup_fmap_filter.
    now apply (data_frame_NoDup usage_data).
  - destruct usage_data; [discriminate Hdf |].
    unfold get_weekly_data in H. rewrite Hdf in H. discriminate H.
Qed.

(** X9: when no two entries of the store carry the same date, the rows of the
    weekly slice are in strictly increasing order of date: no day appears
    twice in the charts. *)
Theorem weekly_slice_strictly_sorted (now : Clock.datetime)
    (usage_data : list UsageEntry.t) (weekly_data : list Row.t) :
  NoDup (UsageEntry.date <$> usage_data) ->
  get_weekly_data now usage_data = Some weekly_data ->
  StronglySorted date_lt weekly_data.
Proof.
  intros Hnd H. destruct (weekly_slice_NoDup now usage_data weekly_data Hnd H).
  now apply sorted_dates_strict.
Qed.

Lemma weekly_slice_strictly_sorted_witness :
  NoDup (UsageEntry.date <$> [entry_on "2024-01-09"; entry_on "2024-01-04"])
  /\ get_weekly_data noon_2024_01_10 [entry_on "2024-01-09"; entry_on "2024-01-04"]
     = Some [row_at 2024 1 4 "2024-01-04"; row_at 2024 1 9 "2024-01-09"]
  /\ StronglySorted date_lt [row_at 2024 1 4 "2024-01-04"; row_at 2024 1 9 "2024-01-09"].
Proof.
  assert (H1 : NoDup (UsageEntry.date <$> [entry_on "2024-01-09"; entry_on "2024-01-04"])).
  { apply (bool_decide_unpack _). vm_compute. exact I. }
  assert (H2 : get_weekly_data noon_2024_01_10
                 [entry_on "2024-01-09"; entry_on "2024-01-04"]
               = Some [row_at 2024 1 4 "2024-01-04"; row_at 2024 1 9 "2024-01-09"])
    by (vm_compute; reflexivity).
  exact (conj H1 (conj H2 (weekly_slice_strictly_sorted _ _ _ H1 H2))).
Defined.

Lemma entry_of_row (s : Save) :
  Clock.readable (save_now1 s) ->
  to_row (entry_of s)
  = Some (Row.mk (Clock.day_of (save_now1 s) * Clock.us_per_day) (save_total_energy s)
                 (save_user_data s) (Clock.isoformat (save_now2 s))).
Proof.
  intros Hs. unfold to_row, entry_of. cbn [UsageEntry.date].
  rewrite (to_datetime_strftime _ Hs). reflexivity.
Qed.

(** ** Weekly slice of a session *)

(** The rows of a session are dated no later than today, when no save was
    made later than [now]. *)
Lemma session_rows_past (now : Clock.datetime) (saves : list Save) (df : list Row.t) :
  Forall (fun s => Clock.readable (save_now1 s)) saves ->
  Forall (fun s => save_now1 s <= now) saves ->
  mapM to_row (run_saves saves) = Some df ->
  Forall (fun r => Clock.day_of (Row.date r) <= Clock.day_of now) df.
Proof.
  intros Hread Hpast Hdf. apply Forall_forall. intros r Hr.
  destruct (data_frame_elem_of _ _ _ Hdf Hr) as (entry & Hentry & Hrow).
  apply run_saves_elem_of in Hentry as (s & Hs & ->).
  rewrite Forall_forall in Hread, Hpast.
  rewrite (entry_of_row s (Hread s Hs)) in Hrow. injection Hrow as <-.
  cbn [Row.date]. unfold Clock.day_of at 1. rewrite Z.div_mul by discriminate.
  unfold Clock.day_of. apply Z.div_le_mono; [reflexivity | now apply Hpast].
Qed.

(** A row dated no later than today and outside the window of the
    specification is dated before the instant seven days before [now]. *)
Lemma past_row_outside_window (now : Clock.datetime) (r : Row.t) :
  Clock.day_of (Row.date r) <= Clock.day_of now ->
  in_spec_window now r = false ->
  Row.date r < now - Clock.timedelta_days 7.
Proof.
  unfold in_spec_window, Clock.timedelta_days, Clock.day_of.
  intros Hpast Hout. apply andb_false_iff in Hout as [Hout | Hout];
    [apply Z.leb_gt in Hout | apply Z.leb_gt in Hout; lia].
  assert (HD : 0 < Clock.us_per_day) by reflexivity.
  pose proof (Z.div_mod now Clock.us_per_day ltac:(lia)) as Hn.
  pose proof (Z.mod_pos_bound now Clock.us_per_day HD) as Hnb.
  pose proof (Z.div_mod (Row.date r) Clock.us_per_day ltac:(lia)) as Hr.
  pose proof (Z.mod_pos_bound (Row.date r) Clock.us_per_day HD) as Hrb.
  set (qn := now / Clock.us_per_day) in *. set (mn := now mod Clock.us_per_day) in *.
  set (qr := Row.date r / Clock.us_per_day) in *.
  set (mr := Row.date r mod Clock.us_per_day) in *.
  set (D := Clock.us_per_day) in *. nia.
Qed.

(** C7: the weekly slice of the empty store is the empty sequence, with no
    error.  So is the slice of a store that is not empty, has no row dated
    after today, and has no row dated in the window from seven days before
    today to today.  The stores of the program are of that kind: built by
    saves, none of them made later than [now], their dates are all read and
    none is after today; so the slice of a session is always returned, and
    is empty when no entry is dated in the window. *)
Theorem weekly_slice_empty (now : Clock.datetime) (usage_data : list UsageEntry.t)
    (df : list Row.t) (saves : list Save) :
  get_weekly_data now [] = Some []
  /\ (mapM to_row usage_data = Some df ->
      Forall (fun r => Clock.day_of (Row.date r) <= Clock.day_of now) df ->
      Forall (fun r => in_spec_window now r = false) df ->
      get_weekly_data now usage_data = Some [])
  /\ (Forall (fun s => Clock.readable (save_now1 s)) saves ->
      Forall (fun s => save_now1 s <= now) saves ->
      exists rows weekly_data,
        mapM to_row (run_saves saves) = Some rows
        /\ Forall (fun r => Clock.day_of (Row.date r) <= Clock.day_of now) rows
        /\ get_weekly_data now (run_saves saves) = Some weekly_data
        /\ (Forall (fun r => in_spec_window now r = false) rows -> weekly_data = [])).
Proof.
  assert (Hempty : forall l,
            Forall (fun r => Clock.day_of (Row.date r) <= Clock.day_of now) l ->
            Forall (fun r => in_spec_window now r = false) l ->
            sort_values_date
              (filter (fun r => now - Clock.timedelta_days 7 <= Row.date r) l) = []).
  { intros l Hpast Hout. rewrite filter_all_before; [reflexivity |].
    rewrite Forall_forall in Hpast, Hout. apply Forall_forall. intros r Hr.
    apply past_row_outside_window; [now apply Hpast | now apply Hout]. }
  split; [reflexivity |]. split.
  - intros Hdf Hpast Hout. rewrite (get_weekly_data_nonempty now usage_data df Hdf).
    now rewrite Hempty.
  - intros Hread Hpast. destruct (run_saves_data_frame saves Hread) as [rows Hrows].
    pose proof (session_rows_past now saves rows Hread Hpast Hrows) as Hdays.
    exists rows. eexists. split; [exact Hrows |]. split; [exact Hdays |].
    split; [exact (get_weekly_data_nonempty now _ rows Hrows) |].
    intros Hout. now apply Hempty.
Qed.

Lemma weekly_slice_empty_witness :
  mapM to_row [entry_on "2023-12-25"] = Some [row_at 2023 12 25 "2023-12-25"]
  /\ Forall (fun r => Clock.day_of (Row.date r) <= Clock.day_of noon_2024_01_10)
            [row_at 2023 12 25 "2023-12-25"]
  /\ Forall (fun r => in_spec_window noon_2024_01_10 r = false)
            [row_at 2023 12 25 "2023-12-25"]
  /\ get_weekly_data noon_2024_01_10 [entry_on "2023-12-25"] = Some []
  /\ Forall (fun s => Clock.readable (save_now1 s)) [sample_save]
  /\ Forall (fun s => save_now1 s <= Clock.mk_datetime 2024 1 20 8 0 0 0) [sample_save]
  /\ get_weekly_data (Clock.mk_datetime 2024 1 20 8 0 0 0) (run_saves [sample_save])
     = Some [].
Proof.
  assert (H1 : mapM to_row [entry_on "2023-12-25"] = Some [row_at 2023 12 25 "2023-12-25"])
    by (vm_compute; reflexivity).
  assert (H2 : Forall (fun r => Clock.day_of (Row.date r) <= Clock.day_of noon_2024_01_10)
                      [row_at 2023 12 25 "2023-12-25"])
    by (repeat constructor; vm_compute; discriminate).
  assert (H3 : Forall (fun r => in_spec_window noon_2024_01_10 r = false)
                      [row_at 2023 12 25 "2023-12-25"])
    by (repeat constructor).
  assert (H4 : Forall (fun s => Clock.readable (save_now1 s)) [sample_save])
    by (repeat constructor; vm_compute; discriminate).
  assert (H5 : Forall (fun s => save_now1 s <= Clock.mk_datetime 2024 1 20 8 0 0 0)
                      [sample_save])
    by (repeat constructor; vm_compute; discriminate).
  pose proof (weekly_slice_empty noon_2024_01_10 [entry_on "2023-12-25"]
                [row_at 2023 12 25 "2023-12-25"] []) as (_ & Ha & _).
  pose proof (weekly_slice_empty (Clock.mk_datetime 2024 1 20 8 0 0 0) [] []
                [sample_save]) as (_ & _ & Hb).
  destruct (Hb H4 H5) as (rows & weekly_data & Hrows & _ & Hget & Hout).
  assert (H6 : Forall (fun r => in_spec_window (Clock.mk_datetime 2024 1 20 8 0 0 0) r = false)
                      rows).
  { pose proof Hrows as E. vm_compute in E. injection E as <-. repeat constructor. }
  rewrite (Hout H6) in Hget.
  exact (conj H1 (conj H2 (conj H3 (conj (Ha H1 H2 H3) (conj H4 (conj H5 Hget)))))).
Defined.

Lemma days_bounded_length (a n : Z) (l : list Z) :
  0 <= n -> NoDup l -> Forall (fun t => exists k, a <= k < a + n /\ t = k * Clock.us_per_day) l ->
  (length l <= Z.to_nat n)%nat.
Proof.
  intros Hn Hnd Hl.
  assert (H : l ⊆+ (fun k => k * Clock.us_per_day) <$> seqZ a n).
  { apply NoDup_submseteq; [exact Hnd |].
    intros t Ht. rewrite Forall_forall in Hl. destruct (Hl t Ht) as (k & Hk & ->).
    apply list_elem_of_fmap. exists k. split; [reflexivity |]. apply elem_of_seqZ. lia. }
  apply submseteq_length in H. now rewrite length_fmap, length_seqZ in H.
Qed.

(** X10: in a session whose clock never ran backwards the weekly slice is
    returned without error, holds at most eight rows, and at most seven
    unless [now] is midnight to the microsecond: the last seven calendar
    days, today included. *)
Theorem weekly_slice_of_session_bounded (now : Clock.datetime) (saves : list Save) :
  Forall (fun s => Clock.readable (save_now1 s)) saves ->
  Forall (fun s => save_now1 s <= now) saves ->
  exists weekly_data,
    get_weekly_data now (run_saves saves) = Some weekly_data
    /\ (length weekly_data <= 8)%nat
    /\ (Clock.time_of_day now <> 0 -> (length weekly_data <= 7)%nat)
    /\ Forall (fun r => Clock.day_of now - 7 <= Clock.day_of (Row.date r) <= Clock.day_of now)
              weekly_data.
Proof.
  intros Hread Hpast. destruct (run_saves_data_frame saves Hread) as [df Hdf].
  pose proof (get_weekly_data_nonempty now _ df Hdf) as Hget.
  eexists. split; [exact Hget |].
  destruct (weekly_slice_NoDup now _ _ (run_saves_NoDup saves) Hget) as [Hnd _].
  set (weekly := sort_values_date _) in *.
  assert (Hrows : forall r, r ∈ weekly ->
            exists k, Row.date r = k * Clock.us_per_day /\ k <= Clock.day_of now
                      /\ (Clock.day_of now - 7 < k
                          \/ (k = Clock.day_of now - 7 /\ Clock.time_of_day now = 0))).
  { intros r Hr. unfold weekly, sort_values_date in Hr.
    rewrite merge_sort_Permutation in Hr. apply list_elem_of_filter in Hr as [Hwin Hr].
    destruct (data_frame_elem_of _ _ _ Hdf Hr) as (entry & Hentry & Hrow).
    apply run_saves_elem_of in Hentry as (s & Hs & ->).
    rewrite Forall_forall in Hread, Hpast.
    rewrite (entry_of_row s (Hread s Hs)) in Hrow. injection Hrow as <-.
    cbn [Row.date] in *. exists (Clock.day_of (save_now1 s)).
    split; [reflexivity |]. split.
    - unfold Clock.day_of. apply Z.div_le_mono; [reflexivity | now apply Hpast].
    - now apply window_days. }
  assert (Hday : forall k, Clock.day_of (k * Clock.us_per_day) = k)
    by (intros k; unfold Clock.day_of; now rewrite Z.div_mul).
  split; [| split].
  - apply (days_bounded_length (Clock.day_of now - 7) 8 (Row.date <$> weekly)) in Hnd;
      [now rewrite length_fmap in Hnd | lia |].
    apply Forall_fmap, Forall_forall. intros r Hr.
    destruct (Hrows r Hr) as (k & Hk & Hle & Hwin). exists k. split; [lia | exact Hk].
  - intros Htod.
    apply (days_bounded_length (Clock.day_of now - 6) 7 (Row.date <$> weekly)) in Hnd;
      [now rewrite length_fmap in Hnd | lia |].
    apply Forall_fmap, Forall_forall. intros r Hr.
    destruct (Hrows r Hr) as (k & Hk & Hle & Hwin). exists k. split; [lia | exact Hk].
  - apply Forall_forall. intros r Hr.
    destruct (Hrows r Hr) as (k & -> & Hle & Hwin). rewrite Hday. lia.
Qed.

Lemma weekly_slice_of_session_bounded_witness :
  Forall (fun s => Clock.readable (save_now1 s)) [sample_save]
  /\ Forall (fun s => save_now1 s <= noon_2024_01_10) [sample_save]
  /\ exists weekly_data,
       get_weekly_data noon_2024_01_10 (run_saves [sample_save]) = Some weekly_data
       /\ (length weekly_data <= 8)%nat.
Proof.
  assert (H1 : Forall (fun s => Clock.readable (save_now1 s)) [sample_save])
    by (repeat constructor; vm_compute; discriminate).
  assert (H2 : Forall (fun s => save_now1 s <= noon_2024_01_10) [sample_save])
    by (repeat constructor; vm_compute; discriminate).
  destruct (weekly_slice_of_session_bounded noon_2024_01_10 [sample_save] H1 H2)
    as (weekly_data & Ha & Hb & _).
  exact (conj H1 (conj H2 (ex_intro _ weekly_data (conj Ha Hb)))).
Defined.

(** X11: a save followed by the weekly slice.  On a store built by saves on
    readable days, the entry just saved has its row in the slice, with the
    total that was saved, exactly as long as [now] is no more than seven days
    past the midnight that opened the day of the save; in particular in the
    same run and for the six days that follow. *)
Theorem saved_entry_in_weekly_slice (now : Clock.datetime) (saves : list Save) (s : Save) :
  Forall (fun s => Clock.readable (save_now1 s)) saves ->
  Clock.readable (save_now1 s) ->
  exists weekly_data r,
    get_weekly_data now (apply_save (run_saves saves) s) = Some weekly_data
    /\ to_row (entry_of s) = Some r
    /\ Row.total_energy r = save_total_energy s
    /\ (r ∈ weekly_data <-> now - Clock.timedelta_days 7 <= Row.date r)
    /\ (save_now1 s <= now <= save_now1 s + Clock.timedelta_days 6 -> r ∈ weekly_data).
Proof.
  intros Hsaves Hs. rewrite <- run_saves_snoc.
  assert (Hall : Forall (fun s => Clock.readable (save_now1 s)) (saves ++ [s])).
  { apply Forall_app. split; [exact Hsaves |]. now apply Forall_singleton. }
  destruct (run_saves_data_frame _ Hall) as [df Hdf].
  pose proof (get_weekly_data_nonempty now _ df Hdf) as Hget.
  pose proof (entry_of_row s Hs) as Hrow.
  eexists. eexists. split; [exact Hget |]. split; [exact Hrow |]. split; [reflexivity |].
  assert (Hin : entry_of s ∈ run_saves (saves ++ [s])).
  { rewrite run_saves_snoc, apply_save_upsert.
    pose proof (upsert_entries_today (entry_of s) _ (run_saves_NoDup saves)) as Hone.
    assert (H : entry_of s ∈ entries_on (UsageEntry.date (entry_of s))
                               (upsert (entry_of s) (run_saves saves)))
      by (rewrite Hone; apply list_elem_of_here).
    now apply list_elem_of_filter in H as [_ H]. }
  destruct (data_frame_elem_of_2 _ _ _ Hdf Hin) as (r & Hr & Hr').
  rewrite Hrow in Hr'. injection Hr' as <-.
  split.
  - unfold sort_values_date. rewrite merge_sort_Permutation, list_elem_of_filter. tauto.
  - intros Hnow. unfold sort_values_date.
    rewrite merge_sort_Permutation, list_elem_of_filter. split; [| exact Hr].
    cbn [Row.date]. unfold Clock.timedelta_days, Clock.day_of in *.
    assert (HD : 0 < Clock.us_per_day) by reflexivity.
    pose proof (Z.div_mod (save_now1 s) Clock.us_per_day ltac:(lia)) as Hdm.
    pose proof (Z.mod_pos_bound (save_now1 s) Clock.us_per_day HD) as Hb.
    nia.
Qed.

Lemma saved_entry_in_weekly_slice_witness :
  Forall (fun s => Clock.readable (save_now1 s)) [sample_save]
  /\ Clock.readable (save_now1 sample_save)
  /\ exists weekly_data r,
       get_weekly_data noon_2024_01_10 (apply_save (run_saves [sample_save]) sample_save)
       = Some weekly_data
       /\ to_row (entry_of sample_save) = Some r
       /\ r ∈ weekly_data.
Proof.
  assert (H1 : Clock.readable (save_now1 sample_save)) by (vm_compute; split; discriminate).
  assert (H2 : Forall (fun s => Clock.readable (save_now1 s)) [sample_save])
    by (repeat constructor; vm_compute; discriminate).
  destruct (saved_entry_in_weekly_slice noon_2024_01_10 [sample_save] sample_save H2 H1)
    as (weekly_data & r & Ha & Hb & _ & _ & Hc).
  assert (H3 : save_now1 sample_save <= noon_2024_01_10
               <= save_now1 sample_save + Clock.timedelta_days 6)
    by (vm_compute; split; discriminate).
  exact (conj H2 (conj H1 (ex_intro _ weekly_data (ex_intro _ r (conj Ha (conj Hb (Hc H3))))))).
Defined.

(** ** Latest row and breakdown *)

Lemma weekly_slice_sorted (now : Clock.datetime) (usage_data : list UsageEntry.t)
    (weekly_data : list Row.t) :
  get_weekly_data now usage_data = Some weekly_data -> StronglySorted date_le weekly_data.
Proof.
  intros H. destruct usage_data as [| entry usage_data].
  - injection H as <-. constructor.
  - unfold get_weekly_data in H.
    destruct (mapM to_row (entry :: usage_data)) as [df |]; [| discriminate H].
    injection H as <-. apply (StronglySorted_merge_sort date_le).
Qed.

(** X13: the row the breakdown is drawn from, the last row of the weekly slice,
    is a row of greatest date, and the breakdown is that of its profile
    snapshot; the slice has no last row only when it is empty. *)
Theorem latest_row_is_newest (now : Clock.datetime) (usage_data : list UsageEntry.t)
    (weekly_data : list Row.t) (latest : Row.t) :
  get_weekly_data now usage_data = Some weekly_data ->
  last weekly_data = Some latest ->
  Forall (fun r => Row.date r <= Row.date latest) weekly_data
  /\ latest_breakdown weekly_data = Some (active_appliances (Row.user_data latest))
  /\ exists entry, entry ∈ usage_data /\ to_row entry = Some latest.
Proof.
  intros Hget Hlast. pose proof (weekly_slice_sorted _ _ _ Hget) as Hsorted.
  split; [| split].
  - apply last_Some in Hlast as [l' ->].
    apply Forall_app. split.
    + apply Forall_forall. intros r Hr.
      apply (StronglySorted_app_1_elem_of date_le l' [latest] r latest Hsorted Hr),
            list_elem_of_here.
    + apply Forall_singleton. reflexivity.
  - unfold latest_breakdown. now rewrite Hlast.
  - destruct usage_data as [| entry usage_data];
      [injection Hget as <-; discriminate Hlast |].
    unfold get_weekly_data in Hget.
    destruct (mapM to_row (entry :: usage_data)) as [df |] eqn:Hdf; [| discriminate Hget].
    injection Hget as <-. apply last_Some_elem_of in Hlast.
    unfold sort_values_date in Hlast.
    rewrite merge_sort_Permutation in Hlast. apply list_elem_of_filter in Hlast as [_ Hlast].
    now apply (data_frame_elem_of _ df).
Qed.

Lemma latest_row_is_newest_witness :
  get_weekly_data noon_2024_01_10 [entry_on "2024-01-09"; entry_on "2024-01-04"]
  = Some [row_at 2024 1 4 "2024-01-04"; row_at 2024 1 9 "2024-01-09"]
  /\ last [row_at 2024 1 4 "2024-01-04"; row_at 2024 1 9 "2024-01-09"]
     = Some (row_at 2024 1 9 "2024-01-09")
  /\ Forall (fun r => Row.date r <= Row.date (row_at 2024 1 9 "2024-01-09"))
            [row_at 2024 1 4 "2024-01-04"; row_at 2024 1 9 "2024-01-09"].
Proof.
  assert (H1 : get_weekly_data noon_2024_01_10
                 [entry_on "2024-01-09"; entry_on "2024-01-04"]
               = Some [row_at 2024 1 4 "2024-01-04"; row_at 2024 1 9 "2024-01-09"])
    by (vm_compute; reflexivity).
  assert (H2 : last [row_at 2024 1 4 "2024-01-04"; row_at 2024 1 9 "2024-01-09"]
               = Some (row_at 2024 1 9 "2024-01-09")) by reflexivity.
  exact (conj H1 (conj H2 (proj1 (latest_row_is_newest _ _ _ _ H1 H2)))).
Defined.

(** X14: the breakdown of a profile saved by the program has one slice per
    selected appliance, in the order of the table, followed by the base
    slice, so it is never empty; its slices add up to the estimate of that
    profile within 10^-14.  Where the facility has no entry in the table the
    base slice is missing, and with no appliance either the breakdown is
    empty. *)
Theorem breakdown_matches_estimate (h : HousingType) (user_data : UserData.t) :
  UserData.facility user_data = housing_label h ->
  (active_appliances user_data).*1
  = (appliance_label <$> selected (flags_of user_data)) ++ ["Base (Lights & Fans)"]
  /\ (Qabs (slices_sum (active_appliances user_data)
            - py_value (total_energy_of (UserData.facility user_data) (flags_of user_data)))
      <= 1 # 10 ^ 14)%Q.
Proof.
  destruct user_data as [n ag c ar ft fa a1 a2 a3 a4 a5 a6]. cbn [UserData.facility].
  intros ->. split.
  - destruct h, a1, a2, a3, a4, a5, a6; vm_compute; reflexivity.
  - apply Qle_bool_iff.
    destruct h, a1, a2, a3, a4, a5, a6; vm_compute; reflexivity.
Qed.

Lemma breakdown_matches_estimate_witness :
  UserData.facility sample_user = housing_label TwoBHK
  /\ (active_appliances sample_user).*1 = ["AC"; "Fridge"; "Base (Lights & Fans)"].
Proof.
  split; [reflexivity |].
  exact (proj1 (breakdown_matches_estimate TwoBHK sample_user eq_refl)).
Defined.

(** X15: where the facility has no entry in the table the breakdown has no
    base slice: it lists the selected appliances only, and nothing at all
    when none is selected. *)
Theorem breakdown_without_base (user_data : UserData.t) :
  lower (UserData.facility user_data) <> "1bhk" ->
  lower (UserData.facility user_data) <> "2bhk" ->
  lower (UserData.facility user_data) <> "3bhk" ->
  (active_appliances user_data).*1 = appliance_label <$> selected (flags_of user_data)
  /\ (flags_of user_data = no_appliances -> active_appliances user_data = []).
Proof.
  intros H1 H2 H3.
  assert (Hbase : calculate_base_energy (UserData.facility user_data) = int 0).
  { unfold calculate_base_energy. now rewrite base_consumption_lookup_ne. }
  unfold active_appliances, appliances_of. rewrite Hbase.
  destruct user_data as [n ag c ar ft fa a1 a2 a3 a4 a5 a6]. split.
  - destruct a1, a2, a3, a4, a5, a6; vm_compute; reflexivity.
  - unfold flags_of, no_appliances. cbn. intros [= -> -> -> -> -> ->].
    vm_compute. reflexivity.
Qed.

Lemma breakdown_without_base_witness :
  lower "Studio" <> "1bhk" /\ lower "Studio" <> "2bhk" /\ lower "Studio" <> "3bhk"
  /\ active_appliances
       (UserData.mk "Asha" 30 "Pune" "Baner" "Flat" "Studio"
                    false false false false false false) = [].
Proof.
  assert (H1 : lower "Studio" <> "1bhk") by (vm_compute; discriminate).
  assert (H2 : lower "Studio" <> "2bhk") by (vm_compute; discriminate).
  assert (H3 : lower "Studio" <> "3bhk") by (vm_compute; discriminate).
  exact (conj H1 (conj H2 (conj H3
    (proj2 (breakdown_without_base
              (UserData.mk "Asha" 30 "Pune" "Baner" "Flat" "Studio"
                           false false false false false false) H1 H2 H3) eq_refl)))).
Defined.

(** ** The order of the store *)

Lemma mapM_Permutation {A B : Type} (f : A -> option B) (l l' : list A) (k : list B) :
  l ≡ₚ l' -> mapM f l = Some k -> exists k', mapM f l' = Some k' /\ k ≡ₚ k'.
Proof.
  intros Hp. revert k.
  induction Hp as [| x l l' _ IH | x y l | l l' l'' _ IH1 _ IH2]; intros k Hk.
  - exists k. split; [exact Hk | reflexivity].
  - apply mapM_Some in Hk. apply Forall2_cons_inv_l in Hk as (b & k0 & Hb & Hk & ->).
    destruct (IH k0 (proj2 (mapM_Some _ _ _) Hk)) as (k' & Hk' & Hperm).
    exists (b :: k'). split; [| now constructor].
    apply mapM_Some. constructor; [exact Hb | now apply mapM_Some].
  - apply mapM_Some in Hk. apply Forall2_cons_inv_l in Hk as (b & k0 & Hb & Hk & ->).
    apply Forall2_cons_inv_l in Hk as (c & k1 & Hc & Hk & ->).
    exists (c :: b :: k1). split; [| apply perm_swap].
    apply mapM_Some. repeat constructor; assumption.
  - destruct (IH1 k Hk) as (k' & Hk' & Hp1). destruct (IH2 k' Hk') as (k'' & Hk'' & Hp2).
    exists k''. split; [exact Hk'' | now transitivity k'].
Qed.

(** X12: the weekly slice does not depend on the order of the store: two stores
    with the same entries, no two of them of the same date, give the same
    slice, row for row. *)
Theorem weekly_slice_order_independent (now : Clock.datetime)
    (usage_data usage_data' : list UsageEntry.t) (weekly_data : list Row.t) :
  NoDup (UsageEntry.date <$> usage_data) -> usage_data ≡ₚ usage_data' ->
  get_weekly_data now usage_data = Some weekly_data ->
  get_weekly_data now usage_data' = Some weekly_data.
Proof.
  intros Hnd Hperm Hget.
  assert (Hnd' : NoDup (UsageEntry.date <$> usage_data')) by now rewrite <- Hperm.
  destruct (mapM to_row usage_data) as [df |] eqn:Hdf.
  - destruct (mapM_Permutation _ _ _ _ Hperm Hdf) as (df' & Hdf' & Hpdf).
    pose proof (get_weekly_data_nonempty now _ df' Hdf') as Hget'.
    rewrite Hget'. f_equal.
    apply (StronglySorted_unique_strong date_lt).
    + unfold date_lt. intros r1 r2 _ _ ? ?. lia.
    + destruct (weekly_slice_NoDup now usage_data' _ Hnd' Hget').
      now apply sorted_dates_strict.
    + destruct (weekly_slice_NoDup now usage_data _ Hnd Hget).
      now apply sorted_dates_strict.
    + rewrite (get_weekly_data_nonempty now _ df Hdf) in Hget. injection Hget as <-.
      unfold sort_values_date. now rewrite !merge_sort_Permutation, Hpdf.
  - destruct usage_data; [discriminate Hdf |].
    unfold get_weekly_data in Hget. rewrite Hdf in Hget. discriminate Hget.
Qed.

Lemma weekly_slice_order_independent_witness :
  NoDup (UsageEntry.date <$> [entry_on "2024-01-09"; entry_on "2024-01-04"])
  /\ [entry_on "2024-01-09"; entry_on "2024-01-04"]
     ≡ₚ [entry_on "2024-01-04"; entry_on "2024-01-09"]
  /\ get_weekly_data noon_2024_01_10 [entry_on "2024-01-09"; entry_on "2024-01-04"]
     = Some [row_at 2024 1 4 "2024-01-04"; row_at 2024 1 9 "2024-01-09"]
  /\ get_weekly_data noon_2024_01_10 [entry_on "2024-01-04"; entry_on "2024-01-09"]
     = Some [row_at 2024 1 4 "2024-01-04"; row_at 2024 1 9 "2024-01-09"].
Proof.
  assert (H1 : NoDup (UsageEntry.date <$> [entry_on "2024-01-09"; entry_on "2024-01-04"])).
  { apply (bool_decide_unpack _). vm_compute. exact I. }
  assert (H2 : [entry_on "2024-01-09"; entry_on "2024-01-04"]
               ≡ₚ [entry_on "2024-01-04"; entry_on "2024-01-09"]) by apply perm_swap.
  assert (H3 : get_weekly_data noon_2024_01_10
                 [entry_on "2024-01-09"; entry_on "2024-01-04"]
               = Some [row_at 2024 1 4 "2024-01-04"; row_at 2024 1 9 "2024-01-09"])
    by (vm_compute; reflexivity).
  exact (conj H1 (conj H2 (conj H3 (weekly_slice_order_independent _ _ _ _ H1 H2 H3)))).
Defined.

(** ** Table of the week *)

(** X16: every line of the table of the week shows the date text, the energy
    and six times the energy of an entry of the store, one line per row of
    the slice: the date that was parsed for sorting is written back as it was
    stored. *)
Theorem display_table_lines (now : Clock.datetime) (usage_data : list UsageEntry.t)
    (weekly_data : list Row.t) :
  get_weekly_data now usage_data = Some weekly_data ->
  length (display_data weekly_data) = length weekly_data
  /\ Forall (fun line =>
              exists entry, entry ∈ usage_data
                /\ line = (UsageEntry.date entry, UsageEntry.total_energy entry,
                           daily_cost (UsageEntry.total_energy entry)))
            (display_data weekly_data).
Proof.
  intros Hget. unfold display_data. split; [apply length_fmap |].
  apply Forall_fmap, Forall_forall. intros r Hr. unfold compose. cbv beta.
  destruct usage_data as [| entry0 usage_data]; [injection Hget as <-; inversion Hr |].
  unfold get_weekly_data in Hget.
  destruct (mapM to_row (entry0 :: usage_data)) as [df |] eqn:Hdf; [| discriminate Hget].
  injection Hget as <-. unfold sort_values_date in Hr.
  rewrite merge_sort_Permutation in Hr. apply list_elem_of_filter in Hr as [_ Hr].
  destruct (data_frame_elem_of _ _ _ Hdf Hr) as (entry & Hentry & Hrow).
  exists entry. split; [exact Hentry |].
  apply to_row_date in Hrow as (Hdate & -> & _).
  destruct (strftime_to_datetime _ _ Hdate) as [-> _]. reflexivity.
Qed.

Lemma display_table_lines_witness :
  get_weekly_data noon_2024_01_10 [entry_on "2024-01-09"; entry_on "2024-01-04"]
  = Some [row_at 2024 1 4 "2024-01-04"; row_at 2024 1 9 "2024-01-09"]
  /\ length (display_data [row_at 2024 1 4 "2024-01-04"; row_at 2024 1 9 "2024-01-09"])
     = 2%nat.
Proof.
  assert (H : get_weekly_data noon_2024_01_10
                [entry_on "2024-01-09"; entry_on "2024-01-04"]
              = Some [row_at 2024 1 4 "2024-01-04"; row_at 2024 1 9 "2024-01-09"])
    by (vm_compute; reflexivity).
  exact (conj H (proj1 (display_table_lines _ _ _ H))).
Defined.

(** ** Download names *)

Lemma strftime_of_compact (t1 t2 : Clock.datetime) :
  strftime_compact t1 = strftime_compact t2 ->
  Clock.strftime_Ymd t1 = Clock.strftime_Ymd t2.
Proof.
  unfold strftime_compact, Clock.strftime_Ymd.
  destruct (Clock.civil_from_days (Clock.day_of t1)) as [[y1 m1] d1].
  destruct (Clock.civil_from_days (Clock.day_of t2)) as [[y2 m2] d2].
  unfold Clock.pad4, Clock.pad2. cbv [String.append].
  intros H. injection H as -> -> -> -> -> -> -> ->. reflexivity.
Qed.

(** X17: the name of a download depends on the day only: two downloads of the
    same kind on one day get the same name, and on two different readable
    days different names. *)
Theorem file_name_by_day (t1 t2 : Clock.datetime) (ext : string) :
  (Clock.day_of t1 = Clock.day_of t2 -> file_name t1 ext = file_name t2 ext)
  /\ (Clock.readable t1 -> Clock.readable t2 ->
      file_name t1 ext = file_name t2 ext -> Clock.day_of t1 = Clock.day_of t2).
Proof.
  split.
  - unfold file_name, strftime_compact. now intros ->.
  - intros H1 H2 Hname.
    assert (Hc : strftime_compact t1 = strftime_compact t2).
    { unfold file_name, strftime_compact in *.
      destruct (Clock.civil_from_days (Clock.day_of t1)) as [[y1 m1] d1].
      destruct (Clock.civil_from_days (Clock.day_of t2)) as [[y2 m2] d2].
      unfold Clock.pad4, Clock.pad2 in *. cbv [String.append] in *.
      injection Hname as -> -> -> -> -> -> -> ->. reflexivity. }
    apply strftime_of_compact in Hc.
    pose proof (to_datetime_strftime t1 H1) as E1.
    pose proof (to_datetime_strftime t2 H2) as E2.
    rewrite Hc, E2 in E1. injection E1 as E1.
    assert (HD : Clock.us_per_day <> 0) by discriminate.
    now apply Z.mul_cancel_r in E1.
Qed.

Lemma file_name_by_day_witness :
  Clock.day_of noon_2024_01_10 = Clock.day_of (Clock.mk_datetime 2024 1 10 23 59 59 0)
  /\ file_name noon_2024_01_10 "csv" = "electricity_usage_20240110.csv"
  /\ file_name (Clock.mk_datetime 2024 1 10 23 59 59 0) "csv" = file_name noon_2024_01_10 "csv".
Proof.
  assert (H : Clock.day_of noon_2024_01_10
              = Clock.day_of (Clock.mk_datetime 2024 1 10 23 59 59 0)) by reflexivity.
  split; [exact H |]. split; [reflexivity |].
  symmetry. exact (proj1 (file_name_by_day _ _ "csv") H).
Defined.

(** ** The sidebar over a session *)

(** X4: in a session whose ages are within the bounds of the age box, reading
    the stored profile for the sidebar never raises: the widgets start from
    the defaults of a fresh session or from the values of one of the
    clicks. *)
Theorem sidebar_never_raises (clicks : list Click) :
  Forall (fun c => 1 <= w_age (click_widgets c) <= 120) clicks ->
  exists w,
    sidebar_defaults (user_profile (run_clicks clicks)) = Some w
    /\ (w = mkWidgets "" 25 "" "" Flat OneBHK no_appliances
        \/ exists c, c ∈ clicks /\ w = click_widgets c).
Proof.
  induction clicks as [| c clicks IH] using rev_ind; intros Hages.
  - eexists. split; [reflexivity | now left].
  - apply Forall_app in Hages as [Hages Hc]. rewrite Forall_singleton in Hc.
    destruct (IH Hages) as (w & Hw & Hfrom).
    unfold run_clicks in *. rewrite foldl_app. cbn [foldl]. rewrite click_profile.
    unfold save_of_click. destruct (w_name (click_widgets c)) as [| ch n] eqn:E.
    + exists w. split; [exact Hw |]. destruct Hfrom as [-> | (c0 & Hc0 & ->)]; [now left |].
      right. exists c0. split; [apply elem_of_app; now left | reflexivity].
    + exists (click_widgets c). cbn [save_user_data]. rewrite <- E. split.
      * now apply sidebar_defaults_of_widgets.
      * right. exists c. split; [| reflexivity].
        apply elem_of_app. right. apply list_elem_of_here.
Qed.

Lemma sidebar_never_raises_witness :
  Forall (fun c => 1 <= w_age (click_widgets c) <= 120)
         [mkClick noon_2024_01_10 noon_2024_01_10 nameless_widgets;
          mkClick noon_2024_01_10 noon_2024_01_10
            (mkWidgets "Asha" 30 "Pune" "Baner" Tenement ThreeBHK ac_and_fridge)]
  /\ exists w,
       sidebar_defaults
         (user_profile
            (run_clicks
               [mkClick noon_2024_01_10 noon_2024_01_10 nameless_widgets;
                mkClick noon_2024_01_10 noon_2024_01_10
                  (mkWidgets "Asha" 30 "Pune" "Baner" Tenement ThreeBHK ac_and_fridge)]))
       = Some w
       /\ w = mkWidgets "Asha" 30 "Pune" "Baner" Tenement ThreeBHK ac_and_fridge.
Proof.
  assert (H : Forall (fun c => 1 <= w_age (click_widgets c) <= 120)
                [mkClick noon_2024_01_10 noon_2024_01_10 nameless_widgets;
                 mkClick noon_2024_01_10 noon_2024_01_10
                   (mkWidgets "Asha" 30 "Pune" "Baner" Tenement ThreeBHK ac_and_fridge)])
    by (repeat constructor; cbn; lia).
  split; [exact H |].
  destruct (sidebar_never_raises _ H) as (w & Hw & _).
  exists w. split; [exact Hw |].
  assert (E : Some w
              = Some (mkWidgets "Asha" 30 "Pune" "Baner" Tenement ThreeBHK ac_and_fridge))
    by (rewrite <- Hw; reflexivity).
  now injection E.
Defined.

Lemma estimate_range_and_growth_witness :
  is_on TV ac_and_fridge = false
  /\ is_finite (total_energy_of "2bhk" ac_and_fridge) = true
  /\ (py_value (total_energy_of "2bhk" ac_and_fridge)
      < py_value (total_energy_of "2bhk" (switch_on TV ac_and_fridge)))%Q.
Proof.
  assert (H : is_on TV ac_and_fridge = false) by reflexivity.
  pose proof (estimate_range_and_growth "2bhk" ac_and_fridge TV) as (Hfin & _ & _ & Hgrow).
  exact (conj H (conj Hfin (proj1 (Hgrow H)))).
Defined.

Lemma session_entries_consistent_witness :
  entry_of sample_save
    ∈ usage_data (run_clicks [mkClick noon_2024_01_10 noon_2024_01_10
                                (mkWidgets "Asha" 30 "Pune" "Baner" Flat TwoBHK ac_and_fridge)])
  /\ exists c,
       c ∈ [mkClick noon_2024_01_10 noon_2024_01_10
              (mkWidgets "Asha" 30 "Pune" "Baner" Flat TwoBHK ac_and_fridge)]
       /\ UserData.name (UsageEntry.user_data (entry_of sample_save)) = w_name (click_widgets c).
Proof.
  assert (H : entry_of sample_save
    ∈ usage_data (run_clicks [mkClick noon_2024_01_10 noon_2024_01_10
                                (mkWidgets "Asha" 30 "Pune" "Baner" Flat TwoBHK ac_and_fridge)])).
  { replace (usage_data (run_clicks _)) with [entry_of sample_save] by reflexivity.
    apply list_elem_of_here. }
  split; [exact H |].
  destruct (session_entries_consistent _ _ H) as (c & Hc & Hname & _).
  exists c. split; [exact Hc | exact Hname].
Defined.
